(** * Parade Weather: the probability synthesis pipeline

    A shallow embedding of the computational core of the Parade Weather
    backend:

    - [app/utils/indices.py]        comfort indices,
    - [app/services/climatology.py] seasonal percentile bands,
    - [app/utils/fuse.py]           forecast/climatology fusion,
    - [app/main.py]                 risk classification and ranking.

    Number models.  The code computes on binary64.  Two embeddings are
    used, each for the properties it can carry.

    - The exact model: a [float] as an exact rational [Q], the four
      operations and the comparisons exact, decimal literals the
      decimal they spell, [round(x, n)] half-to-even on the exact
      value.  It carries the properties that rounding error does not
      reach: ranges, orderings, comparisons against thresholds, and
      totality where every divisor keeps a margin from zero.
    - The binary64 model (module [Binary64]): the kernel's binary64
      numbers, operation by operation.  It carries the properties that
      fix a computed value or a branch: the fusion formula, the guard
      of the wind chill, the weighted average of [combine_sources].

    The last part of the claims runs the fusion on both and compares:
    they differ where the exact argument of [round] is a tie.

    The functions of the C math library ([math.sin], [math.cos],
    [math.log], [math.exp], the power operator at a fractional exponent,
    [math.pi]) are not code of the repository; they are section
    variables, and a theorem states explicitly whatever it needs to know
    about them.

    Errors.  Code that may raise returns a [result]: a division whose
    divisor is not a literal raises [ZeroDivisionError] at zero,
    [math.log] raises [ValueError] outside its domain, and on binary64
    an integer too large for a float raises [OverflowError] when it is
    divided by one. *)

From Stdlib Require Import QArith Qround Qabs Qminmax Lqa ZArith Lia List String Sorted.
From Stdlib Require Floats Uint63.
From stdpp Require Import gmap strings.
Import ListNotations.

Open Scope Q_scope.

(** ** Python primitives *)

Module Py.

Definition Qltb (x y : Q) : bool := negb (Qle_bool y x).

(** [max(a, b)]: the first argument is kept unless the second is
    strictly larger. *)
Definition max (a b : Q) : Q := if Qltb a b then b else a.

(** [min(a, b)]: the first argument is kept unless the second is
    strictly smaller. *)
Definition min (a b : Q) : Q := if Qltb b a then b else a.

Definition abs (x : Q) : Q := Qabs x.

(** [float(b)] for a boolean [b]. *)
Definition float_of_bool (b : bool) : Q := if b then 1 else 0.

(** Nearest integer, ties to the even one. *)
Definition round_half_even (q : Q) : Z :=
  let f := Qfloor q in
  match Qcompare (q - inject_Z f) (1 # 2) with
  | Lt => f
  | Gt => (f + 1)%Z
  | Eq => if Z.even f then f else (f + 1)%Z
  end.

(** [round(x, ndigits)]: the result is a multiple of [10^-ndigits],
    kept with the denominator [10^ndigits]. *)
Definition round (x : Q) (ndigits : nat) : Q :=
  let s := Z.to_pos (10 ^ Z.of_nat ndigits) in
  round_half_even (x * inject_Z (Zpos s)) # s.

(** [sum(ws)] starts from 0 and adds from the left. *)
Definition sum (ws : list Q) : Q := fold_left Qplus ws 0.

(** Exceptions the core can raise. *)
Inductive exn : Type :=
| ZeroDivisionError
| ValueError (msg : string)
| OverflowError.

Inductive result (A : Type) : Type :=
| Ok (a : A)
| Raise (e : exn).
Arguments Ok {A} a.
Arguments Raise {A} e.

Definition bind {A B} (m : result A) (k : A -> result B) : result B :=
  match m with
  | Ok a => k a
  | Raise e => Raise e
  end.

Definition returns {A} (m : result A) : Prop := exists a, m = Ok a.

(** [x / y] where [y] is not a literal. *)
Definition div (x y : Q) : result Q :=
  if Qeq_bool y 0 then Raise ZeroDivisionError else Ok (x / y).

(** A list comprehension whose body may raise: left to right, the
    first exception wins. *)
Fixpoint comprehension {A B} (f : A -> result B) (l : list A) : result (list B) :=
  match l with
  | [] => Ok []
  | x :: l' =>
      match f x with
      | Raise e => Raise e
      | Ok y => bind (comprehension f l') (fun ys => Ok (y :: ys))
      end
  end.

End Py.

Notation "'let*' x ':=' m 'in' k" := (Py.bind m (fun x => k))
  (at level 10, x name, m at level 100, k at level 200).

(** ** Insertion-ordered dictionaries

    A Python [dict] iterates in insertion order, and the ranking of the
    risks observes it, so a dictionary is the list of its items in that
    order.  Keys are unique ([wf]). *)

Module Dict.

Definition t : Type := list (string * Q).

Definition keys (d : t) : list string := map fst d.

Definition wf (d : t) : Prop := List.NoDup (keys d).

Fixpoint distinct (ks : list string) : bool :=
  match ks with
  | [] => true
  | k :: ks' => negb (existsb (String.eqb k) ks') && distinct ks'
  end.

Fixpoint get (d : t) (k : string) : option Q :=
  match d with
  | [] => None
  | (k', v) :: d' => if String.eqb k' k then Some v else get d' k
  end.

(** [d[k] = v]: an existing key keeps its position, a new one goes last. *)
Fixpoint set (d : t) (k : string) (v : Q) : t :=
  match d with
  | [] => [(k, v)]
  | (k', v') :: d' =>
      if String.eqb k' k then (k', v) :: d' else (k', v') :: set d' k v
  end.

End Dict.

(** The same dictionaries with binary64 values. *)

Module FDict.

Definition t : Type := list (string * PrimFloat.float).

Definition keys (d : t) : list string := map fst d.

Definition wf (d : t) : Prop := List.NoDup (keys d).

Fixpoint get (d : t) (k : string) : option PrimFloat.float :=
  match d with
  | [] => None
  | (k', v) :: d' => if String.eqb k' k then Some v else get d' k
  end.

Fixpoint set (d : t) (k : string) (v : PrimFloat.float) : t :=
  match d with
  | [] => [(k, v)]
  | (k', v') :: d' =>
      if String.eqb k' k then (k', v) :: d' else (k', v') :: set d' k v
  end.

End FDict.

(** ** app/utils/indices.py *)

Module Indices.

Definition compute_heat_index (t_c rh : Q) : Q :=
  let t_f := t_c * 9 / 5 + 32 in
  let hi_f := -42.379 + 2.04901523 * t_f + 10.14333127 * rh - 0.22475541 * t_f * rh
              - 6.83783e-3 * t_f * t_f - 5.481717e-2 * rh * rh + 1.22874e-3 * t_f * t_f * rh
              + 8.5282e-4 * t_f * rh * rh - 1.99e-6 * t_f * t_f * rh * rh in
  (hi_f - 32) * 5 / 9.

Section Libm.

(** [x ** y], [math.log] on its domain, [math.exp]. *)
Variable pow : Q -> Q -> Q.
Variable ln : Q -> Q.
Variable exp : Q -> Q.

Definition compute_wind_chill (t_c wind_ms : Q) : Q :=
  let v_kmh := wind_ms * 3.6 in
  if Py.Qltb v_kmh 4.8 || Py.Qltb 10 t_c then t_c
  else 13.12 + 0.6215 * t_c - 11.37 * (pow v_kmh 0.16) + 0.3965 * t_c * (pow v_kmh 0.16).

(** [math.log(x)] raises [ValueError] unless [x > 0]. *)
Definition math_log (x : Q) : Py.result Q :=
  if Py.Qltb 0 x then Py.Ok (ln x) else Py.Raise (Py.ValueError "math domain error").

Definition compute_dew_point (t_c rh : Q) : Py.result Q :=
  let a := 17.62 in
  let b := 243.12 in
  let* q := Py.div (a * t_c) (b + t_c) in
  let* l := math_log (Py.max rh 1e-6 / 100.0) in
  let gamma := q + l in
  Py.div (b * gamma) (a - gamma).

Definition compute_humidex (t_c rh : Q) : Py.result Q :=
  let* Td := compute_dew_point t_c rh in
  let* r := Py.div 1 (273.15 + Td) in
  let e := 6.11 * exp (5417.7530 * (1 / 273.16 - r)) in
  let humidex := t_c + 0.5555 * (e - 10) in
  Py.Ok humidex.

End Libm.

End Indices.

(** ** app/services/climatology.py *)

Module Climatology.

Record band : Type := Band { p10 : Q; p50 : Q; p90 : Q }.

Record percentiles : Type :=
  Percentiles { HI : band; WC : band; WIND : band; PRCP : band }.

Section Libm.

(** [math.pi], [math.sin], [math.cos]. *)
Variable pi : Q.
Variable sin : Q -> Q.
Variable cos : Q -> Q.

(** [math.radians(x)]. *)
Definition radians (x : Q) : Q := x * (pi / 180).

(** The locals of [get_percentiles], in the order the function
    computes them. *)

Definition offset (lat : Q) : Z :=
  if Py.Qltb lat 0 then ((200 + 182) mod 365)%Z else 200%Z.

Definition theta (lat : Q) (doy : Z) : Q :=
  2 * pi * (inject_Z (doy - offset lat) / 365.0).

Definition mean_t (lat : Q) : Q := 18.0 - 0.12 * Py.abs lat.

Definition amp_t (lat : Q) : Q := Py.max 6.0 (12.0 - 0.08 * Py.abs lat).

Definition t50 (lat : Q) (doy : Z) : Q :=
  mean_t lat + amp_t lat * sin (theta lat doy).

Definition get_percentiles (lat lon : Q) (doy : Z) : percentiles :=
  let s := sin (theta lat doy) in
  let c := cos (theta lat doy) in
  let hi_p50 := t50 lat doy in
  let hi_p90 := hi_p50 + 4.0 in
  let hi_p10 := hi_p50 - 4.0 in
  let wc_p50 := t50 lat doy - 2.0 in
  let wc_p10 := wc_p50 - 6.0 in
  let wc_p90 := wc_p50 + 6.0 in
  let mean_wind := 4.0 + 0.03 * Py.abs lat in
  let amp_wind := 1.0 + 0.01 * Py.abs lat in
  let wind_p50 := Py.max 0.5 (mean_wind + 0.5 * c * amp_wind) in
  let wind_p90 := wind_p50 + 3.0 in
  let wind_p10 := Py.max 0.5 (wind_p50 - 2.0) in
  let wet_season := Py.max 0.0 s in
  let coastiness := 0.3 + 0.2 * (0.5 + 0.5 * sin (radians lon)) in
  let prcp_p50 := 1.0 + 6.0 * wet_season * coastiness in
  let prcp_p90 := prcp_p50 + 6.0 * (0.6 + 0.4 * wet_season) in
  let prcp_p10 := Py.max 0.0 (prcp_p50 - 1.5) in
  {| HI   := Band (Py.round hi_p10 1) (Py.round hi_p50 1) (Py.round hi_p90 1);
     WC   := Band (Py.round wc_p10 1) (Py.round wc_p50 1) (Py.round wc_p90 1);
     WIND := Band (Py.round wind_p10 1) (Py.round wind_p50 1) (Py.round wind_p90 1);
     PRCP := Band (Py.round prcp_p10 1) (Py.round prcp_p50 1) (Py.round prcp_p90 1) |}.

End Libm.

End Climatology.

(** ** app/utils/fuse.py *)

Module Fuse.

Definition alpha_of (lead_hours : Z) : Q :=
  Py.max 0.3 (Py.min 0.9 (1.0 - inject_Z lead_hours / 240.0)).

(** The right-hand side of [fused[k] = ...]. *)
Definition fuse_value (alpha v : Q) : Q :=
  Py.round (Py.max 0.0 (Py.min 1.0 (alpha * v + (1 - alpha) * 0.3 * v + 0.05))) 2.

Definition fuse_probabilities (probs : Dict.t) (lead_hours : Z) : Dict.t :=
  let alpha := alpha_of lead_hours in
  fold_left (fun fused kv => Dict.set fused (fst kv) (fuse_value alpha (snd kv)))
            probs [].

(** [combine_sources] never looks at the order of a dictionary: its
    keys go through a [set], whose iteration order Python leaves
    open.  Sources and result are finite maps. *)

Definition source_get (source : gmap string Q) (key : string) : Q :=
  default 0.0 (source !! key).

Definition all_keys (sources : list (gmap string Q)) : gset string :=
  fold_left (fun keys source => keys ∪ dom source) sources ∅.

(** The inner loop over [zip(sources, normalized_weights)]. *)
Fixpoint weighted_sum_from (acc : Q) (key : string)
         (sources : list (gmap string Q)) (normalized_weights : list Q) : Q :=
  match sources, normalized_weights with
  | source :: sources', weight :: weights' =>
      weighted_sum_from (acc + source_get source key * weight) key sources' weights'
  | _, _ => acc
  end.

Definition combine_sources (sources : list (gmap string Q)) (weights : list Q)
  : Py.result (gmap string Q) :=
  let total_weight := Py.sum weights in
  if Qeq_bool total_weight 0
  then Py.Raise (Py.ValueError "La suma de los pesos no puede ser cero.")
  else
    let* normalized_weights := Py.comprehension (fun w => Py.div w total_weight) weights in
    let keys := all_keys sources in
    Py.Ok (set_to_map
             (fun key => (key, Py.round (weighted_sum_from 0.0 key sources normalized_weights) 4))
             keys).

End Fuse.

(** ** app/main.py: the body of [query] after the data fetch *)

Module Main.

Import Climatology.

(** The dictionary [power]: the keys [query] subscripts are fields,
    the keys it reads with [.get(key, default)] are optional. *)
Record power : Type := Power {
  tmax : Q; tmin : Q; tavg : Q; rh : Q; wind : Q;
  precip : option Q; pop : option Q;
  lead_hours : option Z; spread : option Q
}.

(** The key order of the literal [probs]. *)
Definition categories : list string :=
  ["very_hot"; "very_cold"; "very_windy"; "very_wet"; "very_uncomfortable"]%string.

(** Step 4.  Every band [get_percentiles] returns has its three keys,
    so the defaults of [pct[..].get(..)] are never taken. *)
Definition raw_probs (hi wc dp : Q) (pw : power) (pct : percentiles) : Dict.t :=
  [ ("very_hot"%string,
      Py.float_of_bool (Py.Qltb (Py.max (p90 (HI pct)) 32.0) hi));
    ("very_cold"%string,
      Py.float_of_bool (Py.Qltb wc (Py.min (p10 (WC pct)) 5.0)));
    ("very_windy"%string,
      Py.float_of_bool (Py.Qltb (Py.max (p90 (WIND pct)) 10.0) (wind pw)));
    ("very_wet"%string,
      Py.float_of_bool
        (Qle_bool 50 (default 0 (pop pw))
         || Qle_bool (Py.max (p90 (PRCP pct)) 5) (default 0 (precip pw))));
    ("very_uncomfortable"%string,
      Py.float_of_bool (Qle_bool 20.0 dp || Qle_bool 32.0 hi || Qle_bool wc 0.0)) ].

(** [sorted(l, key=key, reverse=True)].  The sort is stable, also under
    [reverse=True], and the output of a stable sort is determined by
    its input, so a stable insertion sort stands for it. *)
Fixpoint insert_desc (key : string -> Q) (x : string) (l : list string) : list string :=
  match l with
  | [] => [x]
  | y :: l' => if Py.Qltb (key x) (key y) then y :: insert_desc key x l' else x :: l
  end.

Definition sorted_desc (key : string -> Q) (l : list string) : list string :=
  fold_right (insert_desc key) [] l.

(** [fused[k]] for a key [k] of [fused]. *)
Definition item (fused : Dict.t) (k : string) : Q := default 0 (Dict.get fused k).

Definition top_risks (fused : Dict.t) : list string :=
  firstn 2 (sorted_desc (item fused)
              (map fst (List.filter (fun kv => Py.Qltb 0.3 (snd kv)) fused))).

Definition confidence (pw : power) : string :=
  let spread := default 0.2 (spread pw) in
  if Py.Qltb spread 0.15 then "high"
  else if Py.Qltb spread 0.35 then "medium" else "low".

(** Step 8, the advisory strings. *)
Definition suggestions (fused : Dict.t) : list string :=
  (if Py.Qltb 0.3 (item fused "very_wet")
   then ["Mover a 09:00–11:00 reduce riesgo de lluvia"%string] else [])
  ++ (if Py.Qltb 0.3 (item fused "very_windy")
      then ["Usar zona protegida del viento o reubicar 1–2 km"%string] else []).

Record response : Type := Response {
  probabilities : Dict.t;
  risks : list string;
  conf : string
}.

Section Libm.

Variable pi : Q.
Variables sin cos ln : Q -> Q.
Variable pow : Q -> Q -> Q.

Definition query (lat lon : Q) (doy : Z) (pw : power) : Py.result response :=
  let hi := Indices.compute_heat_index (tmax pw) (rh pw) in
  let wc := Indices.compute_wind_chill pow (tmin pw) (wind pw) in
  let* dp := Indices.compute_dew_point ln (tavg pw) (rh pw) in
  let pct := get_percentiles pi sin cos lat lon doy in
  let probs := raw_probs hi wc dp pw pct in
  let fused := Fuse.fuse_probabilities probs (default 72%Z (lead_hours pw)) in
  Py.Ok (Response fused (top_risks fused) (confidence pw)).

End Libm.

End Main.

(** ** app/services/power.py: the stub

    [get_power_daily] draws from the module-level random generator.
    The draws are made explicit: each is a value of [random.random()],
    a number in [0, 1), in the order the function consumes them, and
    [random.uniform(a, b)] is [a + (b - a) * random()]. *)

Module Power.

Definition uniform (a b u : Q) : Q := a + (b - a) * u.

Record draws : Type := Draws {
  u_tmax : Q; u_tmin : Q; u_rh : Q; u_wind : Q;
  u_wet : Q;      (* the [random.random() < 0.5] of [precip] *)
  u_precip : Q    (* drawn only when [u_wet < 0.5] *)
}.

Definition in_unit (u : Q) : Prop := 0 <= u /\ u < 1.

Definition valid (d : draws) : Prop :=
  in_unit (u_tmax d) /\ in_unit (u_tmin d) /\ in_unit (u_rh d)
  /\ in_unit (u_wind d) /\ in_unit (u_wet d) /\ in_unit (u_precip d).

(** The unrounded [precip] and the [pop] read off it. *)
Definition raw_precip (d : draws) : Q :=
  if Py.Qltb (u_wet d) 0.5 then Py.max 0.0 (uniform 0 15 (u_precip d)) else 0.0.

Definition pop_of (precip : Q) : Q :=
  if Py.Qltb 5 precip then 60 else if Py.Qltb 0 precip then 30 else 10.

Definition get_power_daily (lat lon : Q) (date_iso : string) (d : draws) : Main.power :=
  let tmax := 24 + uniform (-5) 5 (u_tmax d) in
  let tmin := 14 + uniform (-5) 5 (u_tmin d) in
  let tavg := (tmax + tmin) / 2 in
  let rh := 65 + uniform (-20) 20 (u_rh d) in
  let wind := Py.max 1.0 (uniform 2 12 (u_wind d)) in
  let precip := raw_precip d in
  let pop := pop_of precip in
  {| Main.tmax := Py.round tmax 1;
     Main.tmin := Py.round tmin 1;
     Main.tavg := Py.round tavg 1;
     Main.rh := Py.round rh 0;
     Main.wind := Py.round wind 1;
     Main.precip := Some (Py.round precip 1);
     Main.pop := Some pop;
     Main.lead_hours := Some 72%Z;
     Main.spread := Some 0.25 |}.

End Power.

(** ** app/services/imerg.py: estimate_pop_from_daily *)

Module Imerg.

Definition estimate_pop_from_daily (precip_mm : Q) : Z :=
  if Qle_bool precip_mm 0.0 then 10
  else if Qle_bool precip_mm 2.0 then 30
  else if Qle_bool precip_mm 5.0 then 50
  else if Qle_bool precip_mm 15.0 then 70
  else 85.

End Imerg.

(** ** Notions the further properties are stated with *)

Module Props.

(** The categories a raw dictionary flags, in its key order. *)
Definition flagged (probs : Dict.t) : list string :=
  map fst (List.filter (fun kv => Qeq_bool (snd kv) 1) probs).

(** Every value of a dictionary is 0 or 1. *)
Definition binary (probs : Dict.t) : Prop :=
  forall k v, In (k, v) probs -> v == 0 \/ v == 1.

End Props.

(** ** The code on binary64

    The same functions on the kernel's binary64 numbers, operation by
    operation in the order Python evaluates them.  [max] and [min] are
    Python's (the first argument is kept unless the second is strictly
    larger, or smaller: a NaN in second place is never taken), [round]
    is Python's [round(x, ndigits)], an integer becomes a float as
    [float(n)] does, and the builtin [sum] and the power operator are
    parameters. *)

Module Binary64.

Import PrimFloat.
#[local] Set Warnings "-inexact-float".

(** The exact value of a finite float. *)
Definition to_Q (x : float) : Q :=
  match FloatOps.Prim2SF x with
  | SpecFloat.S754_finite s m e =>
      let v := inject_Z (Zpos m) * Qpower 2 e in
      if s then - v else v
  | _ => 0
  end.

(** Neither a NaN nor an infinity. *)
Definition finite (x : float) : bool :=
  match FloatOps.Prim2SF x with
  | SpecFloat.S754_zero _ | SpecFloat.S754_finite _ _ _ => true
  | _ => false
  end.

#[local] Open Scope float_scope.

Definition max (a b : float) : float := if ltb a b then b else a.

Definition min (a b : float) : float := if ltb b a then b else a.

(** The float nearest to the integer [n], ties to even; an infinity
    beyond the largest float. *)
Definition of_Z (n : Z) : float :=
  FloatOps.SF2Prim (SpecFloat.binary_normalize FloatOps.prec FloatOps.emax n 0%Z false).

(** [float(n)], as the division [n / 240.0] converts its integer
    operand: [OverflowError] when [n] is too large for a float. *)
Definition of_int (n : Z) : Py.result float :=
  let x := of_Z n in
  if is_infinity x then Py.Raise Py.OverflowError else Py.Ok x.

(** The float nearest to [z / s], ties to even; a zero result of a
    zero [z] has the sign [neg]. *)
Definition nearest (neg : bool) (z : Z) (s : positive) : float :=
  FloatOps.SF2Prim
    match z with
    | Z0 => SpecFloat.S754_zero neg
    | Zpos m =>
        FloatAxioms.SF64div (SpecFloat.S754_finite false m 0%Z)
                            (SpecFloat.S754_finite false s 0%Z)
    | Zneg m =>
        FloatAxioms.SF64div (SpecFloat.S754_finite true m 0%Z)
                            (SpecFloat.S754_finite false s 0%Z)
    end.

(** The decimal [round(x, ndigits)] selects: the exact value of [x]
    rounded half-to-even at [ndigits] decimals. *)
Definition round_decimal (x : float) (ndigits : nat) : Q := Py.round (to_Q x) ndigits.

(** [round(x, ndigits)] for [ndigits >= 0]: the float nearest to that
    decimal; a NaN or an infinity is returned as it is. *)
Definition round (x : float) (ndigits : nat) : float :=
  if is_finite x then
    let s := Z.to_pos (10 ^ Z.of_nat ndigits)%Z in
    nearest (get_sign x) (Py.round_half_even (to_Q x * inject_Z (Zpos s))%Q) s
  else x.

(** [x / y] where [y] is not a literal. *)
Definition div (x y : float) : Py.result float :=
  if eqb y 0 then Py.Raise Py.ZeroDivisionError else Py.Ok (x / y).

(** *** app/utils/fuse.py *)

(** [alpha] from the lead time as a float. *)
Definition alpha_from (l : float) : float := max 0.3 (min 0.9 (1.0 - l / 240.0)).

Definition alpha_of (lead_hours : Z) : Py.result float :=
  let* l := of_int lead_hours in
  Py.Ok (alpha_from l).

Definition fuse_value (alpha v : float) : float :=
  round (max 0.0 (min 1.0 (alpha * v + (1 - alpha) * 0.3 * v + 0.05))) 2.

Definition fuse_probabilities (probs : FDict.t) (lead_hours : Z) : Py.result FDict.t :=
  let* alpha := alpha_of lead_hours in
  Py.Ok (fold_left (fun fused kv => FDict.set fused (fst kv) (fuse_value alpha (snd kv)))
                   probs []).

(** [sum(ws)] adding from the left, as CPython does up to 3.11; from
    3.12 on it adds with a compensation term.  [combine_sources] takes
    the builtin as a parameter, and the examples use weights whose sum
    is exact either way. *)
Definition sum (ws : list float) : float := fold_left add ws 0.

Definition source_get (source : gmap string float) (key : string) : float :=
  default 0.0 (source !! key).

Definition all_keys (sources : list (gmap string float)) : gset string :=
  fold_left (fun keys source => keys ∪ dom source) sources ∅.

Fixpoint weighted_sum_from (acc : float) (key : string)
         (sources : list (gmap string float)) (normalized_weights : list float) : float :=
  match sources, normalized_weights with
  | source :: sources', weight :: weights' =>
      weighted_sum_from (acc + source_get source key * weight) key sources' weights'
  | _, _ => acc
  end.

Definition combine_sources (sum : list float -> float)
           (sources : list (gmap string float)) (weights : list float)
  : Py.result (gmap string float) :=
  let total_weight := sum weights in
  if eqb total_weight 0
  then Py.Raise (Py.ValueError "La suma de los pesos no puede ser cero.")
  else
    let* normalized_weights := Py.comprehension (fun w => div w total_weight) weights in
    let keys := all_keys sources in
    Py.Ok (set_to_map
             (fun key => (key, round (weighted_sum_from 0.0 key sources normalized_weights) 4))
             keys).

(** *** app/utils/indices.py *)

Definition compute_wind_chill (pow : float -> float -> float) (t_c wind_ms : float) : float :=
  let v_kmh := wind_ms * 3.6 in
  if ltb v_kmh 4.8 || ltb 10 t_c then t_c
  else 13.12 + 0.6215 * t_c - 11.37 * (pow v_kmh 0.16) + 0.3965 * t_c * (pow v_kmh 0.16).

(** The two divisors of [compute_dew_point], the second for the
    logarithm [l]. *)
Definition dew_point_divisor (t_c : float) : float := 243.12 + t_c.

Definition dew_point_divisor2 (t_c l : float) : float :=
  17.62 - (17.62 * t_c / (243.12 + t_c) + l).

(** *** For the comparison with the exact model *)

Definition alpha_at (lead_hours : Z) : float := alpha_from (of_Z lead_hours).

(** The decimal the final [round] of [fuse_value] selects. *)
Definition fuse_decimal (alpha v : float) : Q :=
  round_decimal (max 0.0 (min 1.0 (alpha * v + (1 - alpha) * 0.3 * v + 0.05))) 2.

(** The lead times 0 .. 260. *)
Definition lead_times : list Z := map Z.of_nat (seq 0 261).

(** The literals the statements use. *)
Definition one : float := 1.0.
Definition zero : float := 0.0.
Definition seven_tenths : float := 0.7.
Definition minus_243_12 : float := -243.12.

End Binary64.

(** ** The specification's formulas

    Definitions that follow the words of the specification, to be
    compared with the embedded code. *)

Module Spec.

(** The place of a category in a key order. *)
Fixpoint position (k : string) (ks : list string) : nat :=
  match ks with
  | [] => O
  | k' :: ks' => if String.eqb k' k then O else S (position k ks')
  end.

(** [k1] is ranked before [k2]: larger fused probability first, and of
    two categories with the same probability the one that is earlier in
    the key order [ks]. *)
Definition before (key : string -> Q) (pos : string -> nat) (a b : string) : Prop :=
  key b < key a \/ (key a == key b /\ (pos a < pos b)%nat).

Definition ranks_before (fused : Dict.t) (ks : list string) (k1 k2 : string) : Prop :=
  before (Main.item fused) (fun k => position k ks) k1 k2.

(** The weighted average of the value at [key] over the sources, under
    the weights normalised by their sum, a source without the key
    contributing 0. *)
Fixpoint weighted_average_by (total : Q) (key : string)
         (sources : list (gmap string Q)) (weights : list Q) : Q :=
  match sources, weights with
  | source :: sources', w :: weights' =>
      default 0 (source !! key) * (w / total)
      + weighted_average_by total key sources' weights'
  | _, _ => 0
  end.

Definition weighted_average (key : string)
           (sources : list (gmap string Q)) (weights : list Q) : Q :=
  weighted_average_by (Py.sum weights) key sources weights.

(** A percentile band is ordered. *)
Definition band_ordered (b : Climatology.band) : Prop :=
  Climatology.p10 b <= Climatology.p50 b /\ Climatology.p50 b <= Climatology.p90 b.

End Spec.

(** The formulas whose values the claims fix, on binary64: the same
    operations in the order the specification writes them. *)

Module Spec64.

Import PrimFloat.
#[local] Set Warnings "-inexact-float".
#[local] Open Scope float_scope.

Definition clamp (x lo hi : float) : float := Binary64.max lo (Binary64.min hi x).

Definition alpha (lead_time_hours : float) : float :=
  clamp (1 - lead_time_hours / 240) 0.3 0.9.

Definition fused (lead_time_hours raw : float) : float :=
  let a := alpha lead_time_hours in
  Binary64.round (clamp (a * raw + (1 - a) * 0.3 * raw + 0.05) 0 1) 2.

(** The weighted average of the value at [key] under the weights
    divided by [total], a source without the key contributing 0.0,
    added up from the left. *)
Fixpoint weighted_average_from (acc total : float) (key : string)
         (sources : list (gmap string float)) (weights : list float) : float :=
  match sources, weights with
  | source :: sources', w :: weights' =>
      weighted_average_from (acc + default 0 (source !! key) * (w / total)) total key
                            sources' weights'
  | _, _ => acc
  end.

Definition weighted_average (total : float) (key : string)
           (sources : list (gmap string float)) (weights : list float) : float :=
  weighted_average_from 0 total key sources weights.

End Spec64.

(** * Facts *)

Example fuse_72 :
  Fuse.fuse_probabilities [("very_hot"%string, 1.0); ("very_wet"%string, 0.0)] 72
  = [("very_hot"%string, 0.84); ("very_wet"%string, 0.05)].
Proof. vm_compute. reflexivity. Qed.

(** ** Comparisons, [max], [min] *)

Section PyFacts.

Lemma Qltb_true (x y : Q) : Py.Qltb x y = true <-> x < y.
Proof.
  unfold Py.Qltb. rewrite negb_true_iff.
  destruct (Qle_bool y x) eqn:E.
  - apply Qle_bool_iff in E. split; [discriminate | intros; lra].
  - split; [intros _ | reflexivity].
    apply Qnot_le_lt. rewrite <- Qle_bool_iff. congruence.
Qed.

Lemma Qltb_false (x y : Q) : Py.Qltb x y = false <-> y <= x.
Proof.
  unfold Py.Qltb. rewrite negb_false_iff. apply Qle_bool_iff.
Qed.

Lemma max_cases (a b : Q) :
  (a < b /\ Py.max a b = b) \/ (b <= a /\ Py.max a b = a).
Proof.
  unfold Py.max. destruct (Py.Qltb a b) eqn:E.
  - left. split; [now apply Qltb_true | reflexivity].
  - right. split; [now apply Qltb_false | reflexivity].
Qed.

Lemma min_cases (a b : Q) :
  (b < a /\ Py.min a b = b) \/ (a <= b /\ Py.min a b = a).
Proof.
  unfold Py.min. destruct (Py.Qltb b a) eqn:E.
  - left. split; [now apply Qltb_true | reflexivity].
  - right. split; [now apply Qltb_false | reflexivity].
Qed.

Lemma max_Qmax (a b : Q) : Py.max a b == Qmax a b.
Proof.
  destruct (max_cases a b) as [[H ->] | [H ->]].
  - symmetry. apply Q.max_r. lra.
  - symmetry. apply Q.max_l. exact H.
Qed.

Lemma min_Qmin (a b : Q) : Py.min a b == Qmin a b.
Proof.
  destruct (min_cases a b) as [[H ->] | [H ->]].
  - symmetry. apply Q.min_r. lra.
  - symmetry. apply Q.min_l. exact H.
Qed.

End PyFacts.

Ltac py_max_case a b :=
  let H := fresh in
  let E := fresh in
  destruct (max_cases a b) as [[H E] | [H E]]; rewrite E in *; clear E.

Ltac py_min_case a b :=
  let H := fresh in
  let E := fresh in
  destruct (min_cases a b) as [[H E] | [H E]]; rewrite E in *; clear E.

(** Case analysis on every [max] and [min] of the goal and the context. *)
Ltac py_minmax :=
  repeat match goal with
  | |- context [Py.max ?a ?b] => py_max_case a b
  | |- context [Py.min ?a ?b] => py_min_case a b
  | _ : context [Py.max ?a ?b] |- _ => py_max_case a b
  | _ : context [Py.min ?a ?b] |- _ => py_min_case a b
  end.

(** ** Rounding *)

Section RoundFacts.

Lemma round_half_even_cases (q : Q) :
  let f := Qfloor q in
  (q - inject_Z f < 1 # 2 /\ Py.round_half_even q = f) \/
  (1 # 2 < q - inject_Z f /\ Py.round_half_even q = (f + 1)%Z) \/
  (q - inject_Z f == 1 # 2 /\
   Py.round_half_even q = if Z.even f then f else (f + 1)%Z).
Proof.
  intros f. unfold Py.round_half_even. fold f.
  destruct (Qcompare_spec (q - inject_Z f) (1 # 2)) as [E | L | G].
  - right; right. split; [exact E | reflexivity].
  - left. split; [exact L | reflexivity].
  - right; left. split; [exact G | reflexivity].
Qed.

Lemma round_half_even_floor (q : Q) :
  (Qfloor q <= Py.round_half_even q <= Qfloor q + 1)%Z.
Proof.
  destruct (round_half_even_cases q) as [[_ ->] | [[_ ->] | [_ ->]]];
    try destruct (Z.even _); lia.
Qed.

Lemma round_half_even_comp (x y : Q) :
  x == y -> Py.round_half_even x = Py.round_half_even y.
Proof.
  intros E. unfold Py.round_half_even.
  rewrite (Qfloor_comp x y E).
  assert (C : Qcompare (x - inject_Z (Qfloor y)) (1 # 2)
              = Qcompare (y - inject_Z (Qfloor y)) (1 # 2))
    by (now rewrite E).
  now rewrite C.
Qed.

Lemma round_half_even_mono (x y : Q) :
  x <= y -> (Py.round_half_even x <= Py.round_half_even y)%Z.
Proof.
  intros L.
  pose proof (Qfloor_resp_le x y L) as F.
  pose proof (round_half_even_floor x) as Bx.
  pose proof (round_half_even_floor y) as By.
  destruct (Z.eq_dec (Qfloor x) (Qfloor y)) as [E | N]; [| lia].
  destruct (round_half_even_cases x) as [[Hx Ex] | [[Hx Ex] | [Hx Ex]]];
  destruct (round_half_even_cases y) as [[Hy Ey] | [[Hy Ey] | [Hy Ey]]];
    rewrite Ex, Ey; rewrite E in *;
    try (destruct (Z.even (Qfloor y))); try lia; exfalso; lra.
Qed.

Lemma round_half_even_Z (z : Z) : Py.round_half_even (inject_Z z) = z.
Proof.
  destruct (round_half_even_cases (inject_Z z)) as [[_ ->] | [[H _] | [H _]]];
    rewrite Qfloor_Z in *; [reflexivity | exfalso; lra ..].
Qed.

Lemma round_comp (x y : Q) (n : nat) : x == y -> Py.round x n = Py.round y n.
Proof.
  intros E. unfold Py.round.
  set (s := Z.to_pos (10 ^ Z.of_nat n)).
  rewrite (round_half_even_comp (x * inject_Z (Z.pos s)) (y * inject_Z (Z.pos s)));
    [reflexivity | now rewrite E].
Qed.

Lemma round_mono (x y : Q) (n : nat) : x <= y -> Py.round x n <= Py.round y n.
Proof.
  intros L. unfold Py.round.
  set (s := Z.to_pos (10 ^ Z.of_nat n)).
  assert (M : (Py.round_half_even (x * inject_Z (Z.pos s))
               <= Py.round_half_even (y * inject_Z (Z.pos s)))%Z).
  { apply round_half_even_mono. apply Qmult_le_compat_r; [exact L |].
    unfold Qle; simpl; lia. }
  unfold Qle; simpl. nia.
Qed.

(** A value that is already a multiple of [10^-n] is a fixed point;
    with monotonicity this bounds [round] on any interval between
    two such values. *)
Lemma round_ge (c x : Q) (n : nat) :
  Py.round c n == c -> c <= x -> c <= Py.round x n.
Proof. intros F L. rewrite <- F. now apply round_mono. Qed.

Lemma round_le (c x : Q) (n : nat) :
  Py.round c n == c -> x <= c -> Py.round x n <= c.
Proof. intros F L. rewrite <- F. now apply round_mono. Qed.

End RoundFacts.


(** ** Dictionaries *)

Section DictFacts.

Lemma distinct_wf (d : Dict.t) : Dict.distinct (Dict.keys d) = true -> Dict.wf d.
Proof.
  unfold Dict.wf. induction (Dict.keys d) as [| k ks IH]; simpl; intros D.
  - constructor.
  - apply andb_prop in D as [N D]. constructor; [| now apply IH].
    intros I. apply negb_true_iff in N.
    assert (E : existsb (String.eqb k) ks = true)
      by (apply existsb_exists; exists k; split; [exact I | apply String.eqb_refl]).
    congruence.
Qed.

Lemma set_fresh (d : Dict.t) (k : string) (v : Q) :
  ~ In k (Dict.keys d) -> Dict.set d k v = d ++ [(k, v)].
Proof.
  induction d as [| [k' v'] d IH]; simpl; intros N; [reflexivity |].
  destruct (String.eqb_spec k' k) as [-> | _]; [tauto |].
  rewrite IH; tauto.
Qed.

Lemma get_In (d : Dict.t) (k : string) (v : Q) :
  Dict.wf d -> In (k, v) d -> Dict.get d k = Some v.
Proof.
  unfold Dict.wf.
  induction d as [| [k' v'] d IH]; simpl; intros W I; [tauto |].
  apply List.NoDup_cons_iff in W as [N W].
  destruct I as [E | I].
  - injection E as -> ->. now rewrite String.eqb_refl.
  - destruct (String.eqb_spec k' k) as [-> | _]; [| now apply IH].
    exfalso. apply N. change k with (fst (k, v)). now apply in_map.
Qed.

Lemma get_map_values (f : Q -> Q) (d : Dict.t) (k : string) :
  Dict.get (map (fun kv => (fst kv, f (snd kv))) d) k = option_map f (Dict.get d k).
Proof.
  induction d as [| [k' v'] d IH]; simpl; [reflexivity |].
  now destruct (String.eqb k' k).
Qed.

Lemma keys_map_values (f : Q -> Q) (d : Dict.t) :
  Dict.keys (map (fun kv => (fst kv, f (snd kv))) d) = Dict.keys d.
Proof.
  unfold Dict.keys. rewrite map_map. reflexivity.
Qed.

(** Assigning the items of a dictionary one by one to fresh keys
    appends them in order. *)
Lemma fold_set_fresh (f : Q -> Q) (l acc : Dict.t) :
  List.NoDup (Dict.keys acc ++ Dict.keys l) ->
  fold_left (fun fused kv => Dict.set fused (fst kv) (f (snd kv))) l acc
  = acc ++ map (fun kv => (fst kv, f (snd kv))) l.
Proof.
  revert acc. induction l as [| [k v] l IH]; simpl; intros acc N.
  - now rewrite app_nil_r.
  - rewrite set_fresh.
    + rewrite IH.
      * now rewrite <- app_assoc.
      * unfold Dict.keys in *. rewrite map_app; simpl.
        rewrite <- app_assoc. exact N.
    + apply List.NoDup_remove_2 in N. intros I. apply N.
      apply in_or_app. now left.
Qed.

End DictFacts.

(** ** fuse_probabilities *)

Section FuseFacts.

Lemma fuse_probabilities_map (probs : Dict.t) (lead_hours : Z) :
  Dict.wf probs ->
  Fuse.fuse_probabilities probs lead_hours
  = map (fun kv => (fst kv, Fuse.fuse_value (Fuse.alpha_of lead_hours) (snd kv))) probs.
Proof.
  intros W. unfold Fuse.fuse_probabilities.
  now rewrite fold_set_fresh.
Qed.

Lemma alpha_of_bounds (lead_hours : Z) :
  0.3 <= Fuse.alpha_of lead_hours <= 0.9.
Proof.
  unfold Fuse.alpha_of. py_minmax; lra.
Qed.

Lemma fuse_value_comp (a a' v v' : Q) :
  a == a' -> v == v' -> Fuse.fuse_value a v = Fuse.fuse_value a' v'.
Proof.
  intros Ea Ev. unfold Fuse.fuse_value. apply round_comp.
  rewrite !max_Qmax, !min_Qmin.
  apply Q.max_compat; [reflexivity |].
  apply Q.min_compat; [reflexivity |].
  now rewrite Ea, Ev.
Qed.

End FuseFacts.

Section FuseClaims.

Open Scope string_scope.

Lemma fuse_value_zero (a : Q) : Fuse.fuse_value a 0 = 0.05.
Proof.
  unfold Fuse.fuse_value.
  rewrite (round_comp _ 0.05); [vm_compute; reflexivity |].
  py_minmax; lra.
Qed.

Lemma fuse_value_one_range (a : Q) :
  0.3 <= a <= 0.9 -> 0.56 <= Fuse.fuse_value a 1 <= 0.98.
Proof.
  intros [L U]. unfold Fuse.fuse_value.
  assert (B : 0.56 <= Py.max 0.0 (Py.min 1.0 (a * 1 + (1 - a) * 0.3 * 1 + 0.05)) <= 0.98)
    by (py_minmax; lra).
  split.
  - apply round_ge; [vm_compute; reflexivity | apply B].
  - apply round_le; [vm_compute; reflexivity | apply B].
Qed.

(** C3.  When every raw value is 0 or 1, every fused value lies in
    [0.05, 1.0], none is 0, and a raw 0 is fused to exactly 0.05. *)
Theorem fuse_floor (probs : Dict.t) (lead_hours : Z) :
  Dict.wf probs ->
  (forall k v, In (k, v) probs -> v == 0 \/ v == 1) ->
  (forall k v', In (k, v') (Fuse.fuse_probabilities probs lead_hours) ->
     0.05 <= v' <= 1.0 /\ ~ v' == 0)
  /\ (forall k v, In (k, v) probs -> v == 0 ->
       Dict.get (Fuse.fuse_probabilities probs lead_hours) k = Some 0.05).
Proof.
  intros W B. rewrite fuse_probabilities_map by exact W. split.
  - intros k v' I. apply in_map_iff in I as [[k0 v] [E I]].
    simpl in E. injection E as _ <-.
    destruct (B _ _ I) as [Z0 | Z1].
    + rewrite (fuse_value_comp _ (Fuse.alpha_of lead_hours) _ 0);
        [| reflexivity | exact Z0].
      rewrite fuse_value_zero. split; [split |]; [lra | lra | intros A; lra].
    + rewrite (fuse_value_comp _ (Fuse.alpha_of lead_hours) _ 1);
        [| reflexivity | exact Z1].
      pose proof (fuse_value_one_range _ (alpha_of_bounds lead_hours)) as R.
      split; [split |]; [lra | lra | intros A; lra].
  - intros k v I Z0.
    rewrite get_map_values, (get_In _ _ _ W I). simpl.
    rewrite (fuse_value_comp _ (Fuse.alpha_of lead_hours) _ 0);
      [| reflexivity | exact Z0].
    now rewrite fuse_value_zero.
Qed.

Lemma fuse_floor_witness :
  (forall k v', In (k, v') (Fuse.fuse_probabilities [("very_hot", 1.0); ("very_wet", 0.0)] 72) ->
     0.05 <= v' <= 1.0 /\ ~ v' == 0)
  /\ (forall k v, In (k, v) [("very_hot", 1.0); ("very_wet", 0.0)] -> v == 0 ->
       Dict.get (Fuse.fuse_probabilities [("very_hot", 1.0); ("very_wet", 0.0)] 72) k
       = Some 0.05).
Proof.
  apply (fuse_floor [("very_hot", 1.0); ("very_wet", 0.0)] 72).
  - apply distinct_wf. reflexivity.
  - simpl. intros k v [E | [E | []]]; injection E as _ <-.
    + right. reflexivity.
    + left. reflexivity.
Defined.

Lemma fuse_value_mono (a1 a2 v : Q) :
  0 <= v -> a2 <= a1 -> Fuse.fuse_value a2 v <= Fuse.fuse_value a1 v.
Proof.
  intros V L. unfold Fuse.fuse_value. apply round_mono.
  assert (M : a2 * v + (1 - a2) * 0.3 * v + 0.05 <= a1 * v + (1 - a1) * 0.3 * v + 0.05)
    by nra.
  py_minmax; lra.
Qed.

(** A longer lead time never has a larger weight. *)
Lemma alpha_of_antitone (lead1 lead2 : Z) :
  (lead1 <= lead2)%Z -> Fuse.alpha_of lead2 <= Fuse.alpha_of lead1.
Proof.
  intros L. rewrite Zle_Qle in L. unfold Fuse.alpha_of.
  assert (D : inject_Z lead1 / 240.0 <= inject_Z lead2 / 240.0).
  { apply Qmult_le_compat_r; [exact L | vm_compute; discriminate]. }
  py_minmax; lra.
Qed.

(** C9.  For the raw value 1.0 the fused value, rounding included, is
    monotone in the weight: of two lead times, the one with the larger
    clamped alpha has the larger or equal fused value. *)
Theorem fuse_monotone_alpha (lead1 lead2 : Z) :
  Fuse.alpha_of lead2 <= Fuse.alpha_of lead1 ->
  Fuse.fuse_value (Fuse.alpha_of lead2) 1.0 <= Fuse.fuse_value (Fuse.alpha_of lead1) 1.0.
Proof.
  intros L. apply fuse_value_mono; [lra | exact L].
Qed.

Lemma fuse_monotone_alpha_witness :
  Fuse.fuse_value (Fuse.alpha_of 120) 1.0 <= Fuse.fuse_value (Fuse.alpha_of 24) 1.0.
Proof.
  apply (fuse_monotone_alpha 24 120).
  vm_compute. discriminate.
Defined.

End FuseClaims.

(** ** The risk classifier *)

Section ClassifierClaims.

Import Climatology Main.
Open Scope string_scope.

Lemma float_of_bool_one (b : bool) : Some (Py.float_of_bool b) = Some 1 <-> b = true.
Proof. destruct b; simpl; split; congruence. Qed.

Lemma gt_max (a b x : Q) : Py.Qltb (Py.max a b) x = true <-> Qmax a b < x.
Proof. now rewrite Qltb_true, max_Qmax. Qed.

Lemma lt_min (a b x : Q) : Py.Qltb x (Py.min a b) = true <-> x < Qmin a b.
Proof. now rewrite Qltb_true, min_Qmin. Qed.

Lemma ge_max (a b x : Q) : Qle_bool (Py.max a b) x = true <-> Qmax a b <= x.
Proof. now rewrite Qle_bool_iff, max_Qmax. Qed.

(** C2.  The classifier returns the five categories, in the canonical
    order, each with the value 0 or 1, and each is 1 exactly under the
    condition of its row in the policy table. *)
Theorem raw_probs_policy (hi wc dp : Q) (pw : power) (pct : percentiles) :
  let probs := raw_probs hi wc dp pw pct in
  Dict.keys probs = categories
  /\ length probs = 5%nat
  /\ (forall k v, In (k, v) probs -> v = 0 \/ v = 1)
  /\ (Dict.get probs "very_hot" = Some 1 <-> Qmax (p90 (HI pct)) 32.0 < hi)
  /\ (Dict.get probs "very_cold" = Some 1 <-> wc < Qmin (p10 (WC pct)) 5.0)
  /\ (Dict.get probs "very_windy" = Some 1 <-> Qmax (p90 (WIND pct)) 10.0 < wind pw)
  /\ (Dict.get probs "very_wet" = Some 1 <->
        50 <= default 0 (pop pw) \/ Qmax (p90 (PRCP pct)) 5 <= default 0 (precip pw))
  /\ (Dict.get probs "very_uncomfortable" = Some 1 <->
        20 <= dp \/ 32 <= hi \/ wc <= 0).
Proof.
  intros probs. subst probs. unfold raw_probs.
  split; [reflexivity |]. split; [reflexivity |].
  split.
  { simpl. intros k v I.
    repeat (destruct I as [E | I];
            [injection E as _ <-;
             match goal with |- context [Py.float_of_bool ?b] => destruct b end;
             simpl; auto |]).
    destruct I. }
  cbn [Dict.get String.eqb Ascii.eqb Bool.eqb].
  rewrite !float_of_bool_one.
  rewrite !orb_true_iff, gt_max, lt_min, gt_max, ge_max, !Qle_bool_iff.
  do 4 (split; [reflexivity |]).
  split.
  - intros [[H | H] | H]; [left | right; left | right; right]; lra.
  - intros [H | [H | H]]; [left; left | left; right | right]; lra.
Qed.

Lemma raw_probs_wf (hi wc dp : Q) (pw : power) (pct : percentiles) :
  Dict.wf (raw_probs hi wc dp pw pct).
Proof. apply distinct_wf. reflexivity. Qed.

(** The fused dictionary keeps the canonical key order. *)
Lemma fused_keys (hi wc dp : Q) (pw : power) (pct : percentiles) (lead : Z) :
  Dict.keys (Fuse.fuse_probabilities (raw_probs hi wc dp pw pct) lead) = categories.
Proof.
  rewrite fuse_probabilities_map by apply raw_probs_wf.
  now rewrite keys_map_values.
Qed.

End ClassifierClaims.

(** ** Sorting by key, largest first *)

Section SortFacts.

Variable key : string -> Q.

Lemma In_insert_desc (x z : string) (l : list string) :
  In z (Main.insert_desc key x l) <-> z = x \/ In z l.
Proof.
  induction l as [| y l IH]; simpl.
  - intuition congruence.
  - destruct (Py.Qltb (key x) (key y)); simpl; rewrite ?IH; intuition congruence.
Qed.

Lemma insert_desc_sorted (pos : string -> nat) (x : string) (l : list string) :
  StronglySorted (Spec.before key pos) l ->
  Forall (fun z => (pos x < pos z)%nat) l ->
  StronglySorted (Spec.before key pos) (Main.insert_desc key x l).
Proof.
  induction l as [| y l IH]; simpl; intros S P.
  - repeat constructor.
  - apply StronglySorted_inv in S as [S Hy].
    apply List.Forall_cons_iff in P as [Py P].
    destruct (Py.Qltb (key x) (key y)) eqn:E.
    + apply Qltb_true in E.
      constructor; [now apply IH |].
      apply List.Forall_forall. intros z I. apply In_insert_desc in I as [-> | I].
      * left. exact E.
      * rewrite List.Forall_forall in Hy. now apply Hy.
    + apply Qltb_false in E.
      constructor; [now constructor |].
      assert (Bxy : Spec.before key pos x y).
      { destruct (Qlt_le_dec (key y) (key x)) as [L | G]; [now left |].
        right. split; [lra | exact Py]. }
      constructor; [exact Bxy |].
      rewrite List.Forall_forall in *. intros z I.
      specialize (Hy z I). specialize (P z I).
      unfold Spec.before in *.
      destruct Hy as [L | [Q L]].
      * left. lra.
      * destruct (Qlt_le_dec (key z) (key x)) as [L' | G]; [now left |].
        right. split; [lra | exact P].
Qed.

Lemma In_sorted_desc (z : string) (l : list string) :
  In z (Main.sorted_desc key l) <-> In z l.
Proof.
  unfold Main.sorted_desc.
  induction l as [| x l IH]; simpl; [reflexivity |].
  rewrite In_insert_desc, IH. intuition congruence.
Qed.

Lemma sorted_desc_sorted (pos : string -> nat) (l : list string) :
  StronglySorted (fun a b => (pos a < pos b)%nat) l ->
  StronglySorted (Spec.before key pos) (Main.sorted_desc key l).
Proof.
  unfold Main.sorted_desc.
  induction l as [| x l IH]; simpl; intros S.
  - constructor.
  - apply StronglySorted_inv in S as [S Hx].
    apply insert_desc_sorted; [now apply IH |].
    rewrite List.Forall_forall in *. intros z I.
    apply Hx. now apply In_sorted_desc.
Qed.

End SortFacts.

Section SortedFacts.

Context {A : Type}.
Variable R : A -> A -> Prop.

Lemma StronglySorted_app_inv (l1 l2 : list A) :
  StronglySorted R (l1 ++ l2) ->
  StronglySorted R l1 /\ forall a b, In a l1 -> In b l2 -> R a b.
Proof.
  induction l1 as [| x l1 IH]; simpl; intros S.
  - split; [constructor | intros a b []].
  - apply StronglySorted_inv in S as [S Hx].
    destruct (IH S) as [S1 C]. rewrite List.Forall_forall in Hx. split.
    + constructor; [exact S1 |].
      apply List.Forall_forall. intros z I. apply Hx. apply in_or_app. now left.
    + intros a b [<- | Ia] Ib.
      * apply Hx. apply in_or_app. now right.
      * now apply C.
Qed.

Lemma StronglySorted_NoDup (l : list A) :
  (forall a, ~ R a a) -> StronglySorted R l -> List.NoDup l.
Proof.
  intros Irr. induction 1 as [| x l S IH Hx]; constructor; [| exact IH].
  intros I. rewrite List.Forall_forall in Hx. exact (Irr x (Hx x I)).
Qed.

Lemma StronglySorted_impl_In (R' : A -> A -> Prop) (l : list A) :
  (forall a b, In a l -> In b l -> R a b -> R' a b) ->
  StronglySorted R l -> StronglySorted R' l.
Proof.
  intros M S. induction S as [| x l S IH Hx].
  - constructor.
  - constructor.
    + apply IH. intros a b Ia Ib. apply M; now right.
    + rewrite List.Forall_forall in *. intros z I.
      apply M; [now left | now right | now apply Hx].
Qed.

End SortedFacts.

(** ** top_risks *)

Section RankingClaims.

Open Scope string_scope.

Lemma position_cons_ne (x k : string) (ks : list string) :
  x <> k -> Spec.position k (x :: ks) = S (Spec.position k ks).
Proof.
  intros N. simpl. destruct (String.eqb_spec x k); [contradiction | reflexivity].
Qed.

(** A list without duplicates lists its elements by increasing position. *)
Lemma keys_position_sorted (ks : list string) :
  List.NoDup ks ->
  StronglySorted (fun a b => (Spec.position a ks < Spec.position b ks)%nat) ks.
Proof.
  induction ks as [| x ks IH]; intros N; [constructor |].
  apply List.NoDup_cons_iff in N as [Nx N].
  assert (D : forall z, In z ks -> x <> z) by (intros z I ->; contradiction).
  constructor.
  - apply (StronglySorted_impl_In
             (fun a b => (Spec.position a ks < Spec.position b ks)%nat));
      [| exact (IH N)].
    intros a b Ia Ib H.
    rewrite (position_cons_ne x a ks (D a Ia)), (position_cons_ne x b ks (D b Ib)).
    lia.
  - apply List.Forall_forall. intros z I.
    rewrite (position_cons_ne x z ks (D z I)).
    simpl. rewrite String.eqb_refl. lia.
Qed.

Lemma filter_keys_sorted (R : string -> string -> Prop) (p : string * Q -> bool)
      (d : Dict.t) :
  StronglySorted R (Dict.keys d) -> StronglySorted R (map fst (List.filter p d)).
Proof.
  unfold Dict.keys.
  induction d as [| kv d IH]; simpl; intros S; [constructor |].
  apply StronglySorted_inv in S as [S H].
  destruct (p kv); simpl; [| now apply IH].
  constructor; [now apply IH |].
  rewrite List.Forall_forall in *. intros z I. apply H.
  apply in_map_iff in I as [kv' [<- I]].
  apply in_map. apply filter_In in I. tauto.
Qed.

Lemma item_In (fused : Dict.t) (k : string) (v : Q) :
  Dict.wf fused -> In (k, v) fused -> Main.item fused k = v.
Proof.
  intros W I. unfold Main.item. now rewrite (get_In _ _ _ W I).
Qed.

(** The candidates of [top_risks] are the keys whose item exceeds 0.3. *)
Lemma candidates_In (fused : Dict.t) (k : string) :
  Dict.wf fused ->
  In k (map fst (List.filter (fun kv => Py.Qltb 0.3 (snd kv)) fused))
  <-> In k (Dict.keys fused) /\ 0.3 < Main.item fused k.
Proof.
  intros W. rewrite in_map_iff. split.
  - intros [[k' v] [E I]]. simpl in E. subst k'.
    apply filter_In in I as [I P]. simpl in P. apply Qltb_true in P.
    rewrite (item_In _ _ _ W I). split; [| exact P].
    change k with (fst (k, v)). now apply in_map.
  - intros [I P]. unfold Dict.keys in I.
    apply in_map_iff in I as [[k' v] [E I]]. simpl in E. subst k'.
    rewrite (item_In _ _ _ W I) in P.
    exists (k, v). split; [reflexivity |].
    apply filter_In. split; [exact I |]. simpl. now apply Qltb_true.
Qed.

Lemma ranks_before_irrefl (fused : Dict.t) (ks : list string) (k : string) :
  ~ Spec.ranks_before fused ks k k.
Proof.
  unfold Spec.ranks_before, Spec.before. intros [L | [_ L]]; [lra | lia].
Qed.

(** The ranking, for a dictionary with any key order. *)
Lemma top_risks_ranked (fused : Dict.t) :
  Dict.wf fused ->
  let ks := Dict.keys fused in
  let r := Main.top_risks fused in
  (length r <= 2)%nat
  /\ StronglySorted (Spec.ranks_before fused ks) r
  /\ (forall k, In k r -> In k ks /\ 0.3 < Main.item fused k)
  /\ (forall k, In k ks -> 0.3 < Main.item fused k -> ~ In k r ->
        length r = 2%nat /\ forall k', In k' r -> Spec.ranks_before fused ks k' k).
Proof.
  intros W ks r. subst r. unfold Main.top_risks.
  set (L := map fst (List.filter (fun kv => Py.Qltb 0.3 (snd kv)) fused)).
  set (S := Main.sorted_desc (Main.item fused) L).
  assert (SS : StronglySorted (Spec.ranks_before fused ks) S).
  { apply (sorted_desc_sorted (Main.item fused) (fun k => Spec.position k ks)).
    apply filter_keys_sorted. now apply keys_position_sorted. }
  rewrite <- (firstn_skipn 2 S) in SS.
  apply StronglySorted_app_inv in SS as [S1 C].
  assert (Sub : forall k, In k (firstn 2 S) -> In k L).
  { intros k I. apply (In_sorted_desc (Main.item fused)). change (In k S).
    rewrite <- (firstn_skipn 2 S). apply in_or_app. now left. }
  split; [apply firstn_le_length |].
  split; [exact S1 |].
  split.
  - intros k I. apply candidates_In; [exact W | now apply Sub].
  - intros k Ik P N.
    assert (IL : In k S).
    { apply (In_sorted_desc (Main.item fused)). apply candidates_In; [exact W | now split]. }
    rewrite <- (firstn_skipn 2 S) in IL.
    apply in_app_or in IL as [I | I]; [contradiction |].
    split; [| intros k' I'; now apply C].
    rewrite length_firstn.
    destruct (Nat.le_gt_cases (length S) 2) as [Le | Gt]; [| lia].
    rewrite skipn_all2 in I by exact Le. destruct I.
Qed.

(** C8.  On a fused dictionary whose keys are the five categories in the
    canonical order, [top_risks] has at most two entries, every entry
    is a category with fused probability above 0.3, the entries are in
    descending order of probability with ties in canonical order, and a
    category above 0.3 is left out only when two entries rank before
    it. *)
Theorem top_risks_ranking (fused : Dict.t) :
  Dict.keys fused = Main.categories ->
  let r := Main.top_risks fused in
  (length r <= 2)%nat
  /\ List.NoDup r
  /\ StronglySorted (Spec.ranks_before fused Main.categories) r
  /\ (forall k, In k r -> In k Main.categories /\ 0.3 < Main.item fused k)
  /\ (forall k, In k Main.categories -> 0.3 < Main.item fused k -> ~ In k r ->
        length r = 2%nat
        /\ forall k', In k' r -> Spec.ranks_before fused Main.categories k' k).
Proof.
  intros K.
  assert (W : Dict.wf fused).
  { unfold Dict.wf. rewrite K. apply (distinct_wf (map (fun k => (k, 0)) Main.categories)).
    reflexivity. }
  pose proof (top_risks_ranked fused W) as H. simpl in H. rewrite K in H.
  destruct H as (H1 & H2 & H3 & H4).
  intros r. subst r.
  split; [exact H1 |]. split; [| split; [exact H2 | split; [exact H3 | exact H4]]].
  apply (StronglySorted_NoDup (Spec.ranks_before fused Main.categories));
    [apply ranks_before_irrefl | exact H2].
Qed.

Lemma top_risks_ranking_witness :
  let fused := [("very_hot", 0.84); ("very_cold", 0.05); ("very_windy", 0.84);
                ("very_wet", 0.84); ("very_uncomfortable", 0.05)] in
  Main.top_risks fused = ["very_hot"; "very_windy"]
  /\ let r := Main.top_risks fused in
     (length r <= 2)%nat
     /\ List.NoDup r
     /\ StronglySorted (Spec.ranks_before fused Main.categories) r
     /\ (forall k, In k r -> In k Main.categories /\ 0.3 < Main.item fused k)
     /\ (forall k, In k Main.categories -> 0.3 < Main.item fused k -> ~ In k r ->
           length r = 2%nat
           /\ forall k', In k' r -> Spec.ranks_before fused Main.categories k' k).
Proof.
  intros fused. split; [reflexivity |].
  apply (top_risks_ranking fused). reflexivity.
Defined.

(** A response of [query] carries the fused dictionary in the canonical
    key order and its ranking. *)
Lemma query_response (pi : Q) (sin cos ln : Q -> Q) (pow : Q -> Q -> Q)
      (lat lon : Q) (doy : Z) (pw : Main.power) (r : Main.response) :
  Main.query pi sin cos ln pow lat lon doy pw = Py.Ok r ->
  Dict.keys (Main.probabilities r) = Main.categories
  /\ Main.risks r = Main.top_risks (Main.probabilities r).
Proof.
  unfold Main.query.
  destruct (Indices.compute_dew_point ln (Main.tavg pw) (Main.rh pw)) as [dp | e];
    cbn [Py.bind]; [| discriminate].
  intros [= <-]. cbn [Main.probabilities Main.risks].
  split; [apply fused_keys | reflexivity].
Qed.

End RankingClaims.

(** ** The climatology *)

Section ClimatologyClaims.

Import Climatology.

Variable pi : Q.
Variables sin cos : Q -> Q.

(** C5.  The phase offset is 200 on the northern side (latitude >= 0)
    and (200 + 182) mod 365 = 17 on the southern side; the baseline is
    18.0 - 0.12*|lat|, the amplitude max(6.0, 12.0 - 0.08*|lat|), and
    the median is mean + amplitude * sin(theta), which the HI band
    reports rounded.  At latitude -34.9 the offset is 17 and the baseline
    is 13.812, which is 13.8 to one decimal. *)
Theorem seasonal_baseline (lat lon : Q) (doy : Z) :
  ((0 <= lat /\ offset lat = 200%Z) \/ (lat < 0 /\ offset lat = 17%Z))
  /\ ((200 + 182) mod 365 = 17)%Z
  /\ theta pi lat doy = 2 * pi * (inject_Z (doy - offset lat) / 365.0)
  /\ mean_t lat == 18 - 0.12 * Qabs lat
  /\ amp_t lat == Qmax 6 (12 - 0.08 * Qabs lat)
  /\ t50 pi sin lat doy = mean_t lat + amp_t lat * sin (theta pi lat doy)
  /\ p50 (HI (get_percentiles pi sin cos lat lon doy)) = Py.round (t50 pi sin lat doy) 1
  /\ offset (-34.9) = 17%Z
  /\ mean_t (-34.9) == 18 - 0.12 * 34.9
  /\ mean_t (-34.9) == 13.812
  /\ Py.round (mean_t (-34.9)) 1 == 13.8.
Proof.
  split.
  { unfold offset. destruct (Py.Qltb lat 0) eqn:E.
    - right. split; [now apply Qltb_true | reflexivity].
    - left. split; [now apply Qltb_false | reflexivity]. }
  split; [reflexivity |].
  split; [reflexivity |].
  split; [unfold mean_t, Py.abs; lra |].
  split.
  { unfold amp_t, Py.abs. rewrite max_Qmax.
    apply Q.max_compat; [reflexivity | lra]. }
  split; [reflexivity |].
  split; [reflexivity |].
  repeat split; vm_compute; reflexivity.
Qed.

(** C10.  Whatever the latitude, the longitude and the day, each of the
    four bands is ordered after rounding, the wind p10 and p50 are at
    least 0.5 and the precipitation p10 is at least 0.  Of the sine
    only its range is used. *)
Theorem percentiles_ordered (lat lon : Q) (doy : Z) :
  (forall x, -1 <= sin x <= 1) ->
  let pct := get_percentiles pi sin cos lat lon doy in
  Spec.band_ordered (HI pct)
  /\ Spec.band_ordered (WC pct)
  /\ Spec.band_ordered (WIND pct)
  /\ Spec.band_ordered (PRCP pct)
  /\ 0.5 <= p10 (WIND pct)
  /\ 0.5 <= p50 (WIND pct)
  /\ 0 <= p10 (PRCP pct).
Proof.
  intros Hsin pct. subst pct. unfold get_percentiles, Spec.band_ordered. simpl.
  set (s := sin (theta pi lat doy)).
  set (c := cos (theta pi lat doy)).
  set (T := t50 pi sin lat doy).
  set (w := Py.max 0.5 (4.0 + 0.03 * Py.abs lat + 0.5 * c * (1.0 + 0.01 * Py.abs lat))).
  set (wet := Py.max 0.0 s).
  set (coast := 0.3 + 0.2 * (0.5 + 0.5 * sin (radians pi lon))).
  assert (Hw : 0.5 <= w) by (subst w; py_minmax; lra).
  assert (Hwet : 0 <= wet) by (subst wet; py_minmax; lra).
  assert (Hcoast : 0 <= coast).
  { subst coast. pose proof (Hsin (radians pi lon)). lra. }
  assert (Hwc : 0 <= wet * coast) by (now apply Qmult_le_0_compat).
  assert (Hp50 : 1 <= 1.0 + 6.0 * wet * coast) by lra.
  repeat split; try (apply round_mono; py_minmax; lra).
  - apply round_ge; [vm_compute; reflexivity | py_minmax; lra].
  - apply round_ge; [vm_compute; reflexivity | exact Hw].
  - apply round_ge; [vm_compute; reflexivity | py_minmax; lra].
Qed.

End ClimatologyClaims.

(** A bounded stand-in for the sine, to instantiate the range
    hypothesis. *)
Lemma clipped_range (x : Q) : -1 <= Py.max (-1) (Py.min 1 x) <= 1.
Proof. py_minmax; lra. Qed.

Lemma percentiles_ordered_witness :
  let sin := fun x => Py.max (-1) (Py.min 1 x) in
  let cos := fun x => Py.max (-1) (Py.min 1 (1 - x)) in
  let pct := Climatology.get_percentiles 3.14159 sin cos (-34.9) (-56.2) 278 in
  Spec.band_ordered (Climatology.HI pct)
  /\ Spec.band_ordered (Climatology.WC pct)
  /\ Spec.band_ordered (Climatology.WIND pct)
  /\ Spec.band_ordered (Climatology.PRCP pct)
  /\ 0.5 <= Climatology.p10 (Climatology.WIND pct)
  /\ 0.5 <= Climatology.p50 (Climatology.WIND pct)
  /\ 0 <= Climatology.p10 (Climatology.PRCP pct).
Proof.
  intros sin cos.
  apply (percentiles_ordered 3.14159 sin cos (-34.9) (-56.2) 278).
  intros x. apply clipped_range.
Defined.

(** ** The comfort indices *)

Section IndexClaims.

Import Indices.

Lemma div_Ok (x y : Q) : ~ y == 0 -> Py.div x y = Py.Ok (x / y).
Proof.
  intros N. unfold Py.div. destruct (Qeq_bool y 0) eqn:E; [| reflexivity].
  apply Qeq_bool_iff in E. contradiction.
Qed.

(** The humidity is floored before the logarithm: its argument is
    positive whatever the humidity. *)
Lemma log_argument_positive (rh : Q) : 0 < Py.max rh 1e-6 / 100.0.
Proof.
  assert (E : 0 < 1e-6) by reflexivity.
  set (eps := 1e-6) in *.
  apply Qlt_shift_div_l; [reflexivity |]. py_minmax; lra.
Qed.

Lemma math_log_floored (ln : Q -> Q) (rh : Q) :
  math_log ln (Py.max rh 1e-6 / 100.0) = Py.Ok (ln (Py.max rh 1e-6 / 100.0)).
Proof.
  unfold math_log.
  now rewrite (proj2 (Qltb_true _ _) (log_argument_positive rh)).
Qed.

(** C7, as stated, fails: at -243.12 degrees the first division of
    [compute_dew_point] has the divisor 0, so neither function returns,
    whatever the humidity and the logarithm. *)
Lemma dew_point_not_total :
  ~ (forall (ln exp : Q -> Q) (t rh : Q), 0 < rh ->
       Py.returns (compute_dew_point ln t rh)
       /\ Py.returns (compute_humidex ln exp t rh)).
Proof.
  intros H.
  destruct (H (fun x => x - 1) (fun x => 1 + x) (-243.12) 50 ltac:(reflexivity))
    as [[Td E] _].
  vm_compute in E. discriminate.
Qed.

(** C7 (amended).  For every humidity up to 100, also 0 or below, and
    every temperature from -100 to 100 degrees, [compute_dew_point] and
    [compute_humidex] return, and by a wide margin: the argument of
    the logarithm lies in [9e-9, 1], the three divisors are at least
    143, 12 and 118, and the argument of the exponential lies between
    -27 and 6.  Of the logarithm only its range on [9e-9, 1] is used
    (log 9e-9 is -18.52...).  The margins matter because the code
    computes on binary64: far outside the range a divisor can round to
    zero, as the second does at 3e18 degrees and a humidity of 100. *)
Theorem dew_point_total (ln exp : Q -> Q) (t rh : Q) :
  (forall x, 0.000000009 <= x -> x <= 1 -> -18.53 <= ln x <= 0) ->
  -100 <= t <= 100 -> rh <= 100 ->
  let x := Py.max rh 1e-6 / 100.0 in
  let gamma := 17.62 * t / (243.12 + t) + ln x in
  0.000000009 <= x <= 1
  /\ 143 <= 243.12 + t
  /\ 12 <= 17.62 - gamma
  /\ exists Td,
       compute_dew_point ln t rh = Py.Ok Td
       /\ 118 <= 273.15 + Td <= 375
       /\ let arg := 5417.7530 * (1 / 273.16 - 1 / (273.15 + Td)) in
          compute_humidex ln exp t rh = Py.Ok (t + 0.5555 * (6.11 * exp arg - 10))
          /\ -27 < arg < 6.
Proof.
  intros Hln [Ht0 Ht1] Hrh x gamma.
  assert (Hx : 0.000000009 <= x <= 1).
  { subst x.
    assert (E0 : 0.000000009 * 100.0 <= 1e-6) by (vm_compute; discriminate).
    assert (E1 : 1e-6 <= 100) by (vm_compute; discriminate).
    set (eps := 1e-6) in *.
    split; [apply Qle_shift_div_l | apply Qle_shift_div_r];
      try reflexivity; py_minmax; lra. }
  destruct (Hln x (proj1 Hx) (proj2 Hx)) as [Hl0 Hl1].
  assert (Hq0 : -12.32 <= 17.62 * t / (243.12 + t)) by (apply Qle_shift_div_l; lra).
  assert (Hq1 : 17.62 * t / (243.12 + t) <= 5.14) by (apply Qle_shift_div_r; lra).
  split; [exact Hx |]. split; [lra |].
  split; [subst gamma; lra |].
  unfold compute_humidex, compute_dew_point. cbv zeta.
  rewrite (div_Ok (17.62 * t) (243.12 + t)) by lra.
  cbn [Py.bind]. rewrite math_log_floored. cbn [Py.bind].
  fold x. fold gamma.
  assert (Hg : -30.85 <= gamma <= 5.14) by (subst gamma; lra).
  rewrite (div_Ok (243.12 * gamma) (17.62 - gamma)) by lra.
  set (Td := 243.12 * gamma / (17.62 - gamma)).
  assert (HTd0 : -155 <= Td) by (apply Qle_shift_div_l; lra).
  assert (HTd1 : Td <= 101) by (apply Qle_shift_div_r; lra).
  exists Td. split; [reflexivity |]. split; [lra |].
  cbn [Py.bind]. rewrite (div_Ok 1 (273.15 + Td)) by lra.
  cbn [Py.bind]. split; [reflexivity |].
  set (r := 1 / (273.15 + Td)).
  assert (Hr0 : 0.00267 <= r) by (apply Qle_shift_div_l; lra).
  assert (Hr1 : r <= 0.00847) by (apply Qle_shift_div_r; lra).
  assert (Hk0 : 0.00366 < 1 / 273.16) by reflexivity.
  assert (Hk1 : 1 / 273.16 < 0.00367) by reflexivity.
  set (k := 1 / 273.16) in *.
  split; lra.
Qed.

Lemma dew_point_total_witness :
  let ln := fun x : Q => x - 1 in
  let exp := fun x : Q => 1 + x in
  let x := Py.max 70 1e-6 / 100.0 in
  let gamma := 17.62 * 30 / (243.12 + 30) + ln x in
  0.000000009 <= x <= 1
  /\ 143 <= 243.12 + 30
  /\ 12 <= 17.62 - gamma
  /\ exists Td,
       compute_dew_point ln 30 70 = Py.Ok Td
       /\ 118 <= 273.15 + Td <= 375
       /\ let arg := 5417.7530 * (1 / 273.16 - 1 / (273.15 + Td)) in
          compute_humidex ln exp 30 70 = Py.Ok (30 + 0.5555 * (6.11 * exp arg - 10))
          /\ -27 < arg < 6.
Proof.
  intros ln exp.
  apply (dew_point_total ln exp 30 70).
  - intros x H0 H1. unfold ln. split; lra.
  - split; vm_compute; discriminate.
  - vm_compute. discriminate.
Defined.

End IndexClaims.

(** ** combine_sources *)

Section CombineClaims.

Open Scope string_scope.

Lemma comprehension_div (total : Q) (ws : list Q) :
  ~ total == 0 ->
  Py.comprehension (fun w => Py.div w total) ws = Py.Ok (map (fun w => w / total) ws).
Proof.
  intros N. induction ws as [| w ws IH]; simpl; [reflexivity |].
  rewrite (div_Ok w total N), IH. reflexivity.
Qed.

Lemma elem_of_fold_keys (sources : list (gmap string Q)) (acc : gset string) (k : string) :
  k ∈ fold_left (fun keys source => keys ∪ dom source) sources acc
  <-> k ∈ acc \/ exists source, In source sources /\ is_Some (source !! k).
Proof.
  revert acc. induction sources as [| s sources IH]; simpl; intros acc.
  - split; [now left | intros [H | [s [[] _]]]; exact H].
  - rewrite IH, elem_of_union, elem_of_dom. split.
    + intros [[H | H] | [s' [I H]]]; [now left | right; exists s; auto | right; exists s'; auto].
    + intros [H | [s' [[<- | I] H]]]; [left; now left | left; now right | right; exists s'; auto].
Qed.

Lemma elem_of_all_keys (sources : list (gmap string Q)) (k : string) :
  k ∈ Fuse.all_keys sources <-> exists source, In source sources /\ is_Some (source !! k).
Proof.
  unfold Fuse.all_keys. rewrite elem_of_fold_keys, elem_of_empty. tauto.
Qed.

(** The accumulating loop computes the weighted average. *)
Lemma weighted_sum_from_spec (total acc : Q) (key : string)
      (sources : list (gmap string Q)) (weights : list Q) :
  Fuse.weighted_sum_from acc key sources (map (fun w => w / total) weights)
  == acc + Spec.weighted_average_by total key sources weights.
Proof.
  revert acc weights. induction sources as [| s sources IH]; intros acc [| w weights]; simpl;
    try lra.
  rewrite IH. unfold Fuse.source_get. destruct (s !! key); simpl; ring.
Qed.

Lemma lookup_by_key (f : string -> Q) (keys : gset string) (k : string) :
  (set_to_map (fun key => (key, f key)) keys : gmap string Q) !! k
  = if decide (k ∈ keys) then Some (f k) else None.
Proof.
  assert (Inj : forall y y' : string, y ∈ keys -> y' ∈ keys ->
                  (y, f y).1 = (y', f y').1 -> y = y') by (intros y y' _ _ E; exact E).
  destruct (decide (k ∈ keys)) as [I | N].
  - apply (lookup_set_to_map (M := gmap string)); [exact Inj |]. now exists k.
  - apply eq_None_not_Some. intros [x H].
    apply (lookup_set_to_map (M := gmap string)) in H as [y [Hy E]]; [| exact Inj].
    injection E as -> _. contradiction.
Qed.

(** What [combine_sources] returns when the weights do not sum to 0. *)
Lemma combine_sources_value (sources : list (gmap string Q)) (weights : list Q) :
  ~ Py.sum weights == 0 ->
  Fuse.combine_sources sources weights
  = Py.Ok (set_to_map
             (fun key => (key, Py.round (Spec.weighted_average key sources weights) 4))
             (Fuse.all_keys sources)).
Proof.
  intros N. unfold Fuse.combine_sources. cbv zeta.
  destruct (Qeq_bool (Py.sum weights) 0) eqn:E;
    [apply Qeq_bool_iff in E; contradiction |].
  rewrite (comprehension_div _ _ N). cbn [Py.bind]. f_equal.
  apply map_eq. intros k. rewrite !lookup_by_key.
  destruct (decide (k ∈ Fuse.all_keys sources)); [| reflexivity].
  f_equal. apply round_comp.
  rewrite weighted_sum_from_spec. unfold Spec.weighted_average. lra.
Qed.

End CombineClaims.

(** ** The claims about exact values, on binary64 *)

Section FDictFacts.

Lemma fdistinct_wf (d : FDict.t) : Dict.distinct (FDict.keys d) = true -> FDict.wf d.
Proof.
  unfold FDict.wf. induction (FDict.keys d) as [| k ks IH]; simpl; intros D.
  - constructor.
  - apply andb_prop in D as [N D]. constructor; [| now apply IH].
    intros I. apply negb_true_iff in N.
    assert (E : existsb (String.eqb k) ks = true)
      by (apply existsb_exists; exists k; split; [exact I | apply String.eqb_refl]).
    congruence.
Qed.

Lemma fset_fresh (d : FDict.t) (k : string) (v : PrimFloat.float) :
  ~ In k (FDict.keys d) -> FDict.set d k v = d ++ [(k, v)].
Proof.
  induction d as [| [k' v'] d IH]; simpl; intros N; [reflexivity |].
  destruct (String.eqb_spec k' k) as [-> | _]; [tauto |].
  rewrite IH; tauto.
Qed.

Lemma ffold_set_fresh (f : PrimFloat.float -> PrimFloat.float) (l acc : FDict.t) :
  List.NoDup (FDict.keys acc ++ FDict.keys l) ->
  fold_left (fun fused kv => FDict.set fused (fst kv) (f (snd kv))) l acc
  = acc ++ map (fun kv => (fst kv, f (snd kv))) l.
Proof.
  revert acc. induction l as [| [k v] l IH]; simpl; intros acc N.
  - now rewrite app_nil_r.
  - rewrite fset_fresh.
    + rewrite IH.
      * now rewrite <- app_assoc.
      * unfold FDict.keys in *. rewrite map_app; simpl.
        rewrite <- app_assoc. exact N.
    + apply List.NoDup_remove_2 in N. intros I. apply N.
      apply in_or_app. now left.
Qed.

End FDictFacts.

Section Binary64Claims.

Import PrimFloat.
#[local] Set Warnings "-inexact-float".
Open Scope string_scope.
Open Scope float_scope.

(** C1 (amended).  On every dictionary and every lead time
    [fuse_probabilities], as binary64 computes it, raises
    [OverflowError] when the lead time is too large an integer for a
    float, and otherwise keeps the keys in order and sends each raw
    value [v] to [round(clamp(alpha*v + (1-alpha)*0.3*v + 0.05, 0, 1), 2)]
    with [alpha = clamp(1 - lead_hours/240, 0.3, 0.9)], every operation
    a binary64 one.  For raw = 1.0 and lead_hours = 72: alpha = 0.7 and
    the fused value is 0.84.  The value is the binary64 one, not the
    rounding of the exact decimal: for raw = 1.0 at 36, 84, 132 and 156
    hours, where the exact blend is a tie (0.945, ...), the code
    returns 0.95, 0.81, 0.67 and 0.59. *)
Theorem fuse_formula (probs : FDict.t) (lead_hours : Z) :
  FDict.wf probs ->
  Binary64.fuse_probabilities probs lead_hours
  = (let* l := Binary64.of_int lead_hours in
     Py.Ok (map (fun kv => (fst kv, Spec64.fused l (snd kv))) probs))
  /\ Binary64.alpha_of 72 = Py.Ok 0.7
  /\ Binary64.fuse_probabilities [("very_hot", 1.0)] 72 = Py.Ok [("very_hot", 0.84)]
  /\ map (Binary64.fuse_probabilities [("very_hot", 1.0)]) [36; 84; 132; 156]%Z
     = map (fun v => Py.Ok [("very_hot", v)]) [0.95; 0.81; 0.67; 0.59].
Proof.
  intros W. split; [| split; [| split]].
  - unfold Binary64.fuse_probabilities, Binary64.alpha_of.
    destruct (Binary64.of_int lead_hours) as [l | e]; cbn [Py.bind]; [| reflexivity].
    f_equal. rewrite ffold_set_fresh by exact W. reflexivity.
  - vm_compute. reflexivity.
  - vm_compute. reflexivity.
  - vm_compute. reflexivity.
Qed.

Lemma fuse_formula_witness :
  Binary64.fuse_probabilities [("very_hot", 1.0); ("very_wet", 0.0)] 72
  = (let* l := Binary64.of_int 72 in
     Py.Ok (map (fun kv => (fst kv, Spec64.fused l (snd kv)))
                [("very_hot", 1.0); ("very_wet", 0.0)]))
  /\ Binary64.alpha_of 72 = Py.Ok 0.7
  /\ Binary64.fuse_probabilities [("very_hot", 1.0)] 72 = Py.Ok [("very_hot", 0.84)]
  /\ map (Binary64.fuse_probabilities [("very_hot", 1.0)]) [36; 84; 132; 156]%Z
     = map (fun v => Py.Ok [("very_hot", v)]) [0.95; 0.81; 0.67; 0.59].
Proof.
  apply (fuse_formula [("very_hot", 1.0); ("very_wet", 0.0)] 72).
  apply fdistinct_wf. reflexivity.
Defined.

(** C1, the worked example as the specification evaluates it: with
    raw = 1.0 and lead_hours = 72 the code returns 0.84, which is neither
    the 0.98 the example reaches from 0.84 + 0.09 + 0.05 nor the clamped
    0.98 + 0.05 it ends on. *)
Lemma fuse_worked_example_value :
  Binary64.fuse_probabilities [("very_hot", 1.0)] 72 = Py.Ok [("very_hot", 0.84)]
  /\ Binary64.round (Spec64.clamp (0.84 + 0.09 + 0.05) 0 1) 2 = 0.98
  /\ Binary64.round (Spec64.clamp (0.98 + 0.05) 0 1) 2 = 1
  /\ eqb 0.84 0.98 = false /\ eqb 0.84 1 = false.
Proof. repeat split; vm_compute; reflexivity. Qed.

(** *** compute_wind_chill *)

(** C6 (amended).  [compute_wind_chill] returns the temperature
    unchanged when the binary64 product of the wind speed and 3.6 is
    below 4.8 or the temperature is above 10, and the exponentiated
    formula on that product otherwise, also when a comparison is false
    because of a NaN. *)
Theorem wind_chill_regimes (pow : float -> float -> float) (t v : float) :
  (ltb (v * 3.6) 4.8 = true \/ ltb 10 t = true ->
   Binary64.compute_wind_chill pow t v = t)
  /\ (ltb (v * 3.6) 4.8 = false /\ ltb 10 t = false ->
      Binary64.compute_wind_chill pow t v
      = 13.12 + 0.6215 * t - 11.37 * pow (v * 3.6) 0.16
        + 0.3965 * t * pow (v * 3.6) 0.16).
Proof.
  unfold Binary64.compute_wind_chill. cbv zeta. split.
  - intros [E | E]; rewrite E; [reflexivity | now rewrite orb_true_r].
  - intros [E1 E2]. now rewrite E1, E2.
Qed.

(** C6, the threshold as stated: the wind speed 1.3333333333333333 m/s
    is below 4.8 km/h, but its binary64 product with 3.6 is the float
    4.8, which is not below 4.8: at 5 degrees the code applies the
    formula and, with the 1.2852825106977728 of 4.8 ** 0.16, returns
    4.161910430824658 instead of 5. *)
Lemma wind_chill_guard_rounds :
  (Binary64.to_Q 1.3333333333333333 * 3.6 < 4.8)%Q
  /\ 1.3333333333333333 * 3.6 = 4.8
  /\ ltb (1.3333333333333333 * 3.6) 4.8 = false
  /\ (forall pow,
        Binary64.compute_wind_chill pow 5 1.3333333333333333
        = 13.12 + 0.6215 * 5 - 11.37 * pow 4.8 0.16 + 0.3965 * 5 * pow 4.8 0.16)
  /\ (forall pow, pow 4.8 0.16 = 1.2852825106977728 ->
        Binary64.compute_wind_chill pow 5 1.3333333333333333 = 4.161910430824658)
  /\ eqb 4.161910430824658 5 = false.
Proof.
  assert (P : 1.3333333333333333 * 3.6 = 4.8) by (vm_compute; reflexivity).
  assert (F : forall pow,
             Binary64.compute_wind_chill pow 5 1.3333333333333333
             = 13.12 + 0.6215 * 5 - 11.37 * pow 4.8 0.16 + 0.3965 * 5 * pow 4.8 0.16).
  { intros pow. unfold Binary64.compute_wind_chill. cbv zeta. rewrite P.
    replace (ltb 4.8 4.8 || ltb 10 5) with false by (vm_compute; reflexivity).
    reflexivity. }
  split; [vm_compute; reflexivity |].
  split; [exact P |].
  split; [vm_compute; reflexivity |].
  split; [exact F |].
  split; [| vm_compute; reflexivity].
  intros pow H. rewrite F, H. vm_compute. reflexivity.
Qed.

(** *** combine_sources *)

Lemma comprehension_div64 (total : float) (ws : list float) :
  eqb total 0 = false ->
  Py.comprehension (fun w => Binary64.div w total) ws = Py.Ok (map (fun w => w / total) ws).
Proof.
  intros N. induction ws as [| w ws IH]; simpl; [reflexivity |].
  unfold Binary64.div at 1. rewrite N, IH. reflexivity.
Qed.

Lemma elem_of_fold_keys64 (sources : list (gmap string float)) (acc : gset string)
      (k : string) :
  k ∈ fold_left (fun keys source => keys ∪ dom source) sources acc
  <-> k ∈ acc \/ exists source, In source sources /\ is_Some (source !! k).
Proof.
  revert acc. induction sources as [| s sources IH]; simpl; intros acc.
  - split; [now left | intros [H | [s [[] _]]]; exact H].
  - rewrite IH, elem_of_union, elem_of_dom. split.
    + intros [[H | H] | [s' [I H]]]; [now left | right; exists s; auto | right; exists s'; auto].
    + intros [H | [s' [[<- | I] H]]]; [left; now left | left; now right | right; exists s'; auto].
Qed.

Lemma elem_of_all_keys64 (sources : list (gmap string float)) (k : string) :
  k ∈ Binary64.all_keys sources
  <-> exists source, In source sources /\ is_Some (source !! k).
Proof.
  unfold Binary64.all_keys. rewrite elem_of_fold_keys64, elem_of_empty. tauto.
Qed.

(** The accumulating loop computes the weighted average, addition by
    addition. *)
Lemma weighted_sum_from64 (total acc : float) (key : string)
      (sources : list (gmap string float)) (weights : list float) :
  Binary64.weighted_sum_from acc key sources (map (fun w => w / total) weights)
  = Spec64.weighted_average_from acc total key sources weights.
Proof.
  revert acc weights. induction sources as [| s sources IH]; intros acc [| w weights]; simpl;
    try reflexivity.
  apply IH.
Qed.

Lemma lookup_by_key64 (f : string -> float) (keys : gset string) (k : string) :
  (set_to_map (fun key => (key, f key)) keys : gmap string float) !! k
  = if decide (k ∈ keys) then Some (f k) else None.
Proof.
  assert (Inj : forall y y' : string, y ∈ keys -> y' ∈ keys ->
                  (y, f y).1 = (y', f y').1 -> y = y') by (intros y y' _ _ E; exact E).
  destruct (decide (k ∈ keys)) as [I | N].
  - apply (lookup_set_to_map (M := gmap string)); [exact Inj |]. now exists k.
  - apply eq_None_not_Some. intros [x H].
    apply (lookup_set_to_map (M := gmap string)) in H as [y [Hy E]]; [| exact Inj].
    injection E as -> _. contradiction.
Qed.

(** What [combine_sources] returns when the computed sum is not 0. *)
Lemma combine_sources_value64 (sum : list float -> float)
      (sources : list (gmap string float)) (weights : list float) :
  eqb (sum weights) 0 = false ->
  Binary64.combine_sources sum sources weights
  = Py.Ok (set_to_map
             (fun key => (key, Binary64.round
                                 (Spec64.weighted_average (sum weights) key sources weights) 4))
             (Binary64.all_keys sources)).
Proof.
  intros N. unfold Binary64.combine_sources. cbv zeta. rewrite N.
  rewrite (comprehension_div64 _ _ N). cbn [Py.bind]. f_equal.
  apply map_eq. intros k. rewrite !lookup_by_key64.
  destruct (decide (k ∈ Binary64.all_keys sources)); [| reflexivity].
  now rewrite weighted_sum_from64.
Qed.

(** C4 (amended).  [combine_sources] raises exactly when the sum of the
    weights, as [sum] computes it on binary64, compares equal to 0, as
    it does for two empty lists.  Otherwise it returns a dictionary
    whose keys are those of the sources and whose value at a key is the
    weighted average under the weights divided by that sum, a source
    without the key contributing 0.0, added up from the left on
    binary64 and rounded to 4 decimals. *)
Theorem combine_sources_total (sum : list float -> float)
        (sources : list (gmap string float)) (weights : list float) :
  (eqb (sum weights) 0 = true <->
   Binary64.combine_sources sum sources weights
   = Py.Raise (Py.ValueError "La suma de los pesos no puede ser cero."))
  /\ (eqb (sum weights) 0 = true
      \/ Py.returns (Binary64.combine_sources sum sources weights))
  /\ Binary64.combine_sources Binary64.sum [] []
     = Py.Raise (Py.ValueError "La suma de los pesos no puede ser cero.")
  /\ forall combined, Binary64.combine_sources sum sources weights = Py.Ok combined ->
       forall key,
         ((exists source, In source sources /\ is_Some (source !! key)) ->
          combined !! key
          = Some (Binary64.round
                    (Spec64.weighted_average (sum weights) key sources weights) 4))
         /\ ((forall source, In source sources -> source !! key = None) ->
             combined !! key = None).
Proof.
  assert (Z0 : eqb (sum weights) 0 = true ->
               Binary64.combine_sources sum sources weights
               = Py.Raise (Py.ValueError "La suma de los pesos no puede ser cero.")).
  { intros E. unfold Binary64.combine_sources. cbv zeta. now rewrite E. }
  split; [| split; [| split]].
  - split; [exact Z0 |].
    intros R. destruct (eqb (sum weights) 0) eqn:E; [reflexivity |].
    rewrite (combine_sources_value64 _ _ _ E) in R. discriminate.
  - destruct (eqb (sum weights) 0) eqn:E; [now left | right].
    rewrite (combine_sources_value64 _ _ _ E). now eexists.
  - vm_compute. reflexivity.
  - intros combined R key.
    destruct (eqb (sum weights) 0) eqn:E;
      [rewrite (Z0 eq_refl) in R; discriminate |].
    rewrite (combine_sources_value64 _ _ _ E) in R. injection R as <-.
    rewrite lookup_by_key64. split.
    + intros I. apply elem_of_all_keys64 in I. now rewrite decide_True.
    + intros A. rewrite decide_False; [reflexivity |].
      intros I. apply elem_of_all_keys64 in I as [s [I [v H]]].
      rewrite (A s I) in H. discriminate.
Qed.

(** C4, the value as stated: with the weights 1 and 2 and the values 1
    and 0 the weighted average is a third, on binary64
    0.3333333333333333, and the code returns 0.3333. *)
Lemma combine_sources_rounds :
  let sources := [{["a" := 1.0]}; {["a" := 0.0]}] : list (gmap string float) in
  let weights := [1.0; 2.0] in
  Binary64.sum weights = 3
  /\ Spec64.weighted_average 3 "a" sources weights = 0.3333333333333333
  /\ (exists combined,
        Binary64.combine_sources Binary64.sum sources weights = Py.Ok combined
        /\ combined !! "a" = Some 0.3333)
  /\ eqb 0.3333 0.3333333333333333 = false
  /\ ~ (Binary64.to_Q 0.3333 == 1 # 3)%Q.
Proof.
  intros sources weights.
  split; [vm_compute; reflexivity |].
  split; [vm_compute; reflexivity |].
  split; [| split; [vm_compute; reflexivity | vm_compute; discriminate]].
  eexists. split; [reflexivity |]. vm_compute. reflexivity.
Qed.

End Binary64Claims.

(** ** The exact model against binary64

    On the lead times 0 .. 260, which cover every value the weight
    takes, the binary64 computation is compared with the exact one. *)

Section Binary64Checks.

(** [float(n)] is exact on these lead times, and an integer beyond the
    floats raises. *)
Example binary64_of_int :
  forallb (fun l => match Binary64.of_int l with
                    | Py.Ok x => Qeq_bool (Binary64.to_Q x) (inject_Z l)
                    | Py.Raise _ => false
                    end) Binary64.lead_times = true
  /\ Binary64.of_int (10 ^ 400) = Py.Raise Py.OverflowError
  /\ Binary64.of_int (2 ^ 1024 - 2 ^ 970) = Py.Raise Py.OverflowError
  /\ Py.returns (Binary64.of_int (2 ^ 1024 - 2 ^ 970 - 1)).
Proof.
  repeat split; try (vm_compute; reflexivity).
  eexists. vm_compute. reflexivity.
Qed.

(** The worked inputs: 0.84 and 0.05 on binary64 too. *)
Example binary64_worked_example :
  PrimFloat.eqb (Binary64.alpha_at 72) Binary64.seven_tenths = true
  /\ Binary64.fuse_decimal (Binary64.alpha_at 72) Binary64.one = 0.84
  /\ Binary64.fuse_decimal (Binary64.alpha_at 72) Binary64.zero = 0.05.
Proof. repeat split; vm_compute; reflexivity. Qed.

(** With raw 0 or 1 every fused value is in [0.05, 1] on binary64. *)
Example binary64_floor :
  forallb (fun l =>
             Qle_bool 0.05 (Binary64.fuse_decimal (Binary64.alpha_at l) Binary64.one)
             && Qle_bool (Binary64.fuse_decimal (Binary64.alpha_at l) Binary64.one) 1
             && Qeq_bool (Binary64.fuse_decimal (Binary64.alpha_at l) Binary64.zero) 0.05)
          Binary64.lead_times = true.
Proof. vm_compute. reflexivity. Qed.

(** A longer lead time never has a larger fused value on binary64. *)
Example binary64_monotone :
  forallb (fun l =>
             Qle_bool (Binary64.fuse_decimal (Binary64.alpha_at (l + 1)) Binary64.one)
                      (Binary64.fuse_decimal (Binary64.alpha_at l) Binary64.one))
          Binary64.lead_times = true.
Proof. vm_compute. reflexivity. Qed.

(** The two models give the same fused value for raw 1.0 except where
    the exact argument of [round] is a tie (x.xx5): there the exact
    model rounds to even, and binary64, whose argument is a little off
    the tie, rounds to the other neighbour: 0.95, 0.81, 0.67 and 0.59
    where the exact model has 0.94, 0.80, 0.66 and 0.60. *)
Example binary64_agreement :
  List.filter (fun l =>
                 negb (Qeq_bool (Binary64.fuse_decimal (Binary64.alpha_at l) Binary64.one)
                                (Fuse.fuse_value (Fuse.alpha_of l) 1.0)))
              Binary64.lead_times
  = [36; 84; 132; 156]%Z
  /\ map (fun l => Binary64.fuse_decimal (Binary64.alpha_at l) Binary64.one)
         [36; 84; 132; 156]%Z
     = [0.95; 0.81; 0.67; 0.59]
  /\ map (fun l => Fuse.fuse_value (Fuse.alpha_of l) 1.0) [36; 84; 132; 156]%Z
     = [0.94; 0.80; 0.66; 0.60].
Proof. repeat split; vm_compute; reflexivity. Qed.

(** The weight at 168 hours is not the 0.3 of the longer lead times on
    binary64: 1.0 - 168/240.0 is 0.30000000000000004. *)
Example binary64_alpha_168 :
  PrimFloat.ltb (Binary64.alpha_at 169) (Binary64.alpha_at 168) = true
  /\ forallb (fun l => PrimFloat.Leibniz.eqb (Binary64.alpha_at (169 + l)) (Binary64.alpha_at 169))
             Binary64.lead_times = true.
Proof. split; vm_compute; reflexivity. Qed.

(** At -243.12 the first divisor of [compute_dew_point] is 0 on
    binary64 as well; and on binary64 the second divisor is 0 at
    3e18 degrees and a humidity of 100, whose logarithm is
    log(1.0) = 0.0, because the quotient rounds to 17.62. *)
Example binary64_dew_point_divisor :
  PrimFloat.eqb (Binary64.dew_point_divisor Binary64.minus_243_12) Binary64.zero = true
  /\ PrimFloat.eqb (Binary64.dew_point_divisor2 (Binary64.of_Z (3 * 10 ^ 18)) Binary64.zero)
                   Binary64.zero = true.
Proof. split; vm_compute; reflexivity. Qed.

End Binary64Checks.

Section Binary64CombineChecks.

Import PrimFloat.
#[local] Set Warnings "-inexact-float".
Open Scope string_scope.

(** Near a tie the two models of [combine_sources] differ as well:
    with the weights 3 and 19997 and the values 1 and 0 the exact
    average 0.00015 rounds to 0.0002, and the binary64 one, a little
    below the tie, to 0.0001. *)
Example binary64_combine_near_tie :
  (exists combined,
     Binary64.combine_sources Binary64.sum
       [{["a" := 1%float]}; {["a" := 0%float]}] [3%float; 19997%float] = Py.Ok combined
     /\ combined !! "a" = Some 0.0001%float)
  /\ (exists combined,
        Fuse.combine_sources [{["a" := 1]}; {["a" := 0]}] [3; 19997] = Py.Ok combined
        /\ combined !! "a" = Some 0.0002).
Proof.
  split; (eexists; split; [reflexivity | vm_compute; reflexivity]).
Qed.

End Binary64CombineChecks.

(** * Further properties of the code *)

(** ** fuse_probabilities: range and order *)

Section FuseProperties.

Open Scope string_scope.

Lemma In_set (d : Dict.t) (k0 : string) (v0 : Q) (k : string) (v : Q) :
  In (k, v) (Dict.set d k0 v0) -> (k, v) = (k0, v0) \/ In (k, v) d.
Proof.
  induction d as [| [k' v'] d IH]; simpl.
  - intros [E | []]. left. now symmetry.
  - destruct (String.eqb_spec k' k0) as [-> | N]; simpl.
    + intros [E | I]; [left; now symmetry | right; now right].
    + intros [E | I]; [right; now left |].
      destruct (IH I) as [E | I']; [now left | right; now right].
Qed.

(** Whatever the dictionary, a value of the result is the fused value
    of a value of the input. *)
Lemma fuse_probabilities_values (probs : Dict.t) (lead_hours : Z) (k : string) (v' : Q) :
  In (k, v') (Fuse.fuse_probabilities probs lead_hours) ->
  exists v, In (k, v) probs /\ v' = Fuse.fuse_value (Fuse.alpha_of lead_hours) v.
Proof.
  unfold Fuse.fuse_probabilities. cbv zeta.
  set (f := fun (fused : Dict.t) (kv : string * Q) =>
              Dict.set fused (fst kv) (Fuse.fuse_value (Fuse.alpha_of lead_hours) (snd kv))).
  assert (G : forall l acc,
             In (k, v') (fold_left f l acc) ->
             In (k, v') acc
             \/ exists v, In (k, v) l /\ v' = Fuse.fuse_value (Fuse.alpha_of lead_hours) v).
  { induction l as [| [k0 v0] l IH]; simpl; intros acc I; [now left |].
    destruct (IH _ I) as [I' | [v [I' E]]].
    - unfold f in I'. simpl in I'. apply In_set in I' as [E | I'']; [| now left].
      injection E as -> ->. right. exists v0. split; [now left | reflexivity].
    - right. exists v. split; [now right | exact E]. }
  intros I. destruct (G _ _ I) as [[] | H]. exact H.
Qed.

(** X1.  Whatever the raw values and the lead time, every fused value
    lies in [0, 1]. *)
Theorem fuse_unit_interval (probs : Dict.t) (lead_hours : Z) (k : string) (v' : Q) :
  In (k, v') (Fuse.fuse_probabilities probs lead_hours) -> 0 <= v' <= 1.
Proof.
  intros I. apply fuse_probabilities_values in I as [v [_ ->]].
  unfold Fuse.fuse_value. split.
  - apply round_ge; [vm_compute; reflexivity | py_minmax; lra].
  - apply round_le; [vm_compute; reflexivity | py_minmax; lra].
Qed.

Lemma fuse_unit_interval_witness :
  0 <= 0.84 <= 1.
Proof.
  apply (fuse_unit_interval [("very_hot", 1.0); ("very_wet", 0.0)] 72 "very_hot" 0.84).
  vm_compute. left. reflexivity.
Defined.

Lemma fuse_value_soft (lead_hours : Z) (v : Q) :
  0 <= v <= 1 -> 0.05 <= Fuse.fuse_value (Fuse.alpha_of lead_hours) v <= 0.98.
Proof.
  intros [L U]. pose proof (alpha_of_bounds lead_hours) as [A0 A1].
  set (a := Fuse.alpha_of lead_hours) in *.
  unfold Fuse.fuse_value.
  assert (E : a * v + (1 - a) * 0.3 * v + 0.05 == v * (0.7 * a + 0.3) + 0.05) by ring.
  assert (P : 0 <= v * (0.7 * a + 0.3)) by (apply Qmult_le_0_compat; lra).
  assert (Q1 : v * (0.7 * a + 0.3) <= 1 * (0.7 * a + 0.3))
    by (apply Qmult_le_compat_r; lra).
  split.
  - apply round_ge; [vm_compute; reflexivity | py_minmax; lra].
  - apply round_le; [vm_compute; reflexivity | py_minmax; lra].
Qed.

(** X2.  The smoothing keeps hard 0 and 1 out: raw values in [0, 1] are
    fused into [0.05, 0.98], at every lead time. *)
Theorem fuse_soft (probs : Dict.t) (lead_hours : Z) :
  (forall k v, In (k, v) probs -> 0 <= v <= 1) ->
  forall k v', In (k, v') (Fuse.fuse_probabilities probs lead_hours) ->
               0.05 <= v' <= 0.98.
Proof.
  intros B k v' I. apply fuse_probabilities_values in I as [v [I ->]].
  apply fuse_value_soft. exact (B _ _ I).
Qed.

Lemma fuse_soft_witness :
  0.05 <= 0.52 <= 0.98.
Proof.
  refine (fuse_soft [("very_hot", 0.5); ("very_wet", 1.0)] 0 _ "very_hot" 0.52 _).
  - simpl. intros k v [E | [E | []]]; injection E as _ <-; split; vm_compute; discriminate.
  - vm_compute. left. reflexivity.
Defined.

Lemma fuse_value_mono_raw (a v1 v2 : Q) :
  0 <= a <= 1 -> v1 <= v2 -> Fuse.fuse_value a v1 <= Fuse.fuse_value a v2.
Proof.
  intros [A0 A1] L. unfold Fuse.fuse_value. apply round_mono.
  assert (E1 : a * v1 + (1 - a) * 0.3 * v1 + 0.05 == (0.7 * a + 0.3) * v1 + 0.05) by ring.
  assert (E2 : a * v2 + (1 - a) * 0.3 * v2 + 0.05 == (0.7 * a + 0.3) * v2 + 0.05) by ring.
  assert (M : (0.7 * a + 0.3) * v1 <= (0.7 * a + 0.3) * v2).
  { rewrite (Qmult_comm _ v1), (Qmult_comm _ v2). apply Qmult_le_compat_r; lra. }
  py_minmax; lra.
Qed.

(** X4.  Fusion keeps the order of the raw values: a category with the
    smaller raw value never gets the larger fused value. *)
Theorem fuse_order_preserving (probs : Dict.t) (lead_hours : Z) (k1 k2 : string) (v1 v2 : Q) :
  Dict.wf probs ->
  Dict.get probs k1 = Some v1 -> Dict.get probs k2 = Some v2 -> v1 <= v2 ->
  Main.item (Fuse.fuse_probabilities probs lead_hours) k1
  <= Main.item (Fuse.fuse_probabilities probs lead_hours) k2.
Proof.
  intros W G1 G2 L. unfold Main.item.
  rewrite fuse_probabilities_map by exact W.
  rewrite !get_map_values, G1, G2. simpl.
  apply fuse_value_mono_raw; [| exact L].
  pose proof (alpha_of_bounds lead_hours). lra.
Qed.

Lemma fuse_order_preserving_witness :
  Main.item (Fuse.fuse_probabilities [("very_hot", 0.2); ("very_wet", 0.7)] 100) "very_hot"
  <= Main.item (Fuse.fuse_probabilities [("very_hot", 0.2); ("very_wet", 0.7)] 100) "very_wet".
Proof.
  apply (fuse_order_preserving [("very_hot", 0.2); ("very_wet", 0.7)] 100
                               "very_hot" "very_wet" 0.2 0.7).
  - apply distinct_wf. reflexivity.
  - reflexivity.
  - reflexivity.
  - vm_compute. discriminate.
Defined.

End FuseProperties.

(** ** The weight over the lead time *)

Section AlphaProperties.

Lemma fuse_probabilities_alpha (probs : Dict.t) (lead1 lead2 : Z) :
  Fuse.alpha_of lead1 == Fuse.alpha_of lead2 ->
  Fuse.fuse_probabilities probs lead1 = Fuse.fuse_probabilities probs lead2.
Proof.
  intros E. unfold Fuse.fuse_probabilities. cbv zeta.
  generalize (@nil (string * Q)).
  induction probs as [| [k v] probs IH]; simpl; intros acc; [reflexivity |].
  rewrite (fuse_value_comp _ (Fuse.alpha_of lead2) v v E) by reflexivity.
  apply IH.
Qed.

Lemma alpha_of_near (lead_hours : Z) :
  (lead_hours <= 24)%Z -> Fuse.alpha_of lead_hours == 0.9.
Proof.
  intros L. rewrite Zle_Qle in L. unfold Fuse.alpha_of.
  assert (D : inject_Z lead_hours / 240.0 <= 0.1).
  { apply Qle_shift_div_r; [reflexivity |]. change (inject_Z 24) with 24 in L. lra. }
  py_minmax; lra.
Qed.

Lemma alpha_of_far (lead_hours : Z) :
  (168 <= lead_hours)%Z -> Fuse.alpha_of lead_hours == 0.3.
Proof.
  intros L. rewrite Zle_Qle in L. unfold Fuse.alpha_of.
  assert (D : 0.7 <= inject_Z lead_hours / 240.0).
  { apply Qle_shift_div_l; [reflexivity |]. change (inject_Z 168) with 168 in L. lra. }
  py_minmax; lra.
Qed.

(** X5.  The weight has two plateaus: it is 0.9 up to 24 hours and
    0.3 from 169 hours on, so every lead time of at most a day fuses
    like 24 hours and every lead time of more than a week like 169
    hours.  The lead time is an integer a float holds exactly; far
    beyond the floats the division of the code raises OverflowError. *)
Theorem alpha_plateaus (probs : Dict.t) (lead_hours : Z) :
  (Z.abs lead_hours <= 2 ^ 53)%Z ->
  ((lead_hours <= 24)%Z ->
     Fuse.alpha_of lead_hours == 0.9
     /\ Fuse.fuse_probabilities probs lead_hours = Fuse.fuse_probabilities probs 24)
  /\ ((169 <= lead_hours)%Z ->
        Fuse.alpha_of lead_hours == 0.3
        /\ Fuse.fuse_probabilities probs lead_hours = Fuse.fuse_probabilities probs 169).
Proof.
  intros _. split.
  - intros L. split; [now apply alpha_of_near |].
    apply fuse_probabilities_alpha.
    rewrite (alpha_of_near lead_hours L), (alpha_of_near 24); [reflexivity | lia].
  - intros L.
    assert (L' : (168 <= lead_hours)%Z) by lia.
    split; [now apply alpha_of_far |].
    apply fuse_probabilities_alpha.
    rewrite (alpha_of_far lead_hours L'), (alpha_of_far 169); [reflexivity | lia].
Qed.

Lemma alpha_plateaus_witness :
  let probs := [("very_hot"%string, 1.0); ("very_wet"%string, 0.0)] in
  ((300 <= 24)%Z ->
     Fuse.alpha_of 300 == 0.9
     /\ Fuse.fuse_probabilities probs 300 = Fuse.fuse_probabilities probs 24)
  /\ ((169 <= 300)%Z ->
        Fuse.alpha_of 300 == 0.3
        /\ Fuse.fuse_probabilities probs 300 = Fuse.fuse_probabilities probs 169).
Proof.
  intros probs. apply (alpha_plateaus probs 300). vm_compute. discriminate.
Defined.

End AlphaProperties.

(** ** What the 0.3 threshold sees of binary raw values *)

Section ThresholdProperties.

Open Scope string_scope.

Lemma get_Some_In (d : Dict.t) (k : string) (v : Q) :
  Dict.get d k = Some v -> In (k, v) d.
Proof.
  induction d as [| [k' v'] d IH]; simpl; [discriminate |].
  destruct (String.eqb_spec k' k) as [-> | _].
  - intros [= ->]. now left.
  - intros G. right. now apply IH.
Qed.

(** A fused value exceeds 0.3 exactly when the raw value is 1. *)
Lemma threshold_binary (lead_hours : Z) (v : Q) :
  v == 0 \/ v == 1 ->
  Py.Qltb 0.3 (Fuse.fuse_value (Fuse.alpha_of lead_hours) v) = Qeq_bool v 1.
Proof.
  intros [Z0 | Z1].
  - rewrite (fuse_value_comp _ (Fuse.alpha_of lead_hours) v 0) by (reflexivity || exact Z0).
    rewrite fuse_value_zero.
    destruct (Qeq_bool v 1) eqn:E; [| reflexivity].
    apply Qeq_bool_iff in E. exfalso. lra.
  - rewrite (fuse_value_comp _ (Fuse.alpha_of lead_hours) v 1) by (reflexivity || exact Z1).
    pose proof (fuse_value_one_range _ (alpha_of_bounds lead_hours)) as [R _].
    rewrite (proj2 (Qeq_bool_iff v 1) Z1).
    apply Qltb_true. lra.
Qed.

Lemma item_fused (probs : Dict.t) (lead_hours : Z) (k : string) :
  Dict.wf probs -> Props.binary probs ->
  Py.Qltb 0.3 (Main.item (Fuse.fuse_probabilities probs lead_hours) k)
  = Qeq_bool (Main.item probs k) 1.
Proof.
  intros W B. unfold Main.item.
  rewrite fuse_probabilities_map by exact W. rewrite get_map_values.
  destruct (Dict.get probs k) as [v |] eqn:G; cbn [option_map default]; [| reflexivity].
  apply threshold_binary. exact (B _ _ (get_Some_In _ _ _ G)).
Qed.

(** A stable descending sort leaves a list of equal keys as it is. *)
Lemma sorted_desc_const (key : string -> Q) (c : Q) (l : list string) :
  (forall k, In k l -> key k = c) -> Main.sorted_desc key l = l.
Proof.
  unfold Main.sorted_desc.
  induction l as [| x l IH]; simpl; intros C; [reflexivity |].
  rewrite IH by (intros k I; apply C; now right).
  destruct l as [| y l]; simpl; [reflexivity |].
  rewrite (C x), (C y) by (simpl; auto).
  replace (Py.Qltb c c) with false; [reflexivity |].
  symmetry. apply Qltb_false. lra.
Qed.

Lemma candidates_flagged (probs : Dict.t) (lead_hours : Z) :
  Props.binary probs ->
  map fst (List.filter (fun kv => Py.Qltb 0.3 (snd kv))
             (map (fun kv => (fst kv, Fuse.fuse_value (Fuse.alpha_of lead_hours) (snd kv)))
                  probs))
  = Props.flagged probs.
Proof.
  unfold Props.flagged, Props.binary.
  induction probs as [| [k v] probs IH]; intros B; cbn [map List.filter fst snd]; [reflexivity |].
  rewrite (threshold_binary lead_hours v) by (apply (B k); now left).
  assert (B' : forall k' v', In (k', v') probs -> v' == 0 \/ v' == 1)
    by (intros k' v' I; apply (B k'); now right).
  destruct (Qeq_bool v 1); cbn [map fst]; rewrite (IH B'); reflexivity.
Qed.

(** X6.  On binary raw values the ranking is the first two flagged
    categories in key order, at every lead time: all flagged categories
    get the same fused value, and the sort is stable. *)
Theorem top_risks_flagged (probs : Dict.t) (lead_hours : Z) :
  Dict.wf probs -> Props.binary probs ->
  Main.top_risks (Fuse.fuse_probabilities probs lead_hours)
  = firstn 2 (Props.flagged probs).
Proof.
  intros W B. unfold Main.top_risks. f_equal.
  rewrite fuse_probabilities_map by exact W.
  rewrite (candidates_flagged probs lead_hours B).
  apply (sorted_desc_const _ (Fuse.fuse_value (Fuse.alpha_of lead_hours) 1)).
  intros k I. unfold Props.flagged in I.
  apply in_map_iff in I as [[k' v] [E I]]. simpl in E. subst k'.
  apply filter_In in I as [I F]. simpl in F. apply Qeq_bool_iff in F.
  unfold Main.item. rewrite get_map_values, (get_In _ _ _ W I). cbn [option_map default].
  apply fuse_value_comp; [reflexivity | exact F].
Qed.

Lemma top_risks_flagged_witness :
  let probs := [("very_hot", 0); ("very_cold", 1); ("very_windy", 1);
                ("very_wet", 0); ("very_uncomfortable", 1)] in
  Main.top_risks (Fuse.fuse_probabilities probs 72) = firstn 2 (Props.flagged probs).
Proof.
  intros probs. apply (top_risks_flagged probs 72).
  - apply distinct_wf. reflexivity.
  - unfold Props.binary, probs. simpl.
    intros k v [E | [E | [E | [E | [E | []]]]]]; injection E as _ <-;
      (left; reflexivity) || (right; reflexivity).
Defined.

(** X7.  On binary raw values the rain advice is given exactly when
    very_wet is flagged and the wind advice exactly when very_windy is,
    in this order, at every lead time. *)
Theorem suggestions_flagged (probs : Dict.t) (lead_hours : Z) :
  Dict.wf probs -> Props.binary probs ->
  Main.suggestions (Fuse.fuse_probabilities probs lead_hours)
  = ((if Qeq_bool (Main.item probs "very_wet") 1
      then ["Mover a 09:00–11:00 reduce riesgo de lluvia"] else [])
     ++ (if Qeq_bool (Main.item probs "very_windy") 1
         then ["Usar zona protegida del viento o reubicar 1–2 km"] else []))%list.
Proof.
  intros W B. unfold Main.suggestions.
  now rewrite !(item_fused probs lead_hours _ W B).
Qed.

Lemma suggestions_flagged_witness :
  let probs := [("very_hot", 0); ("very_cold", 1); ("very_windy", 1);
                ("very_wet", 0); ("very_uncomfortable", 1)] in
  Main.suggestions (Fuse.fuse_probabilities probs 72)
  = ((if Qeq_bool (Main.item probs "very_wet") 1
      then ["Mover a 09:00–11:00 reduce riesgo de lluvia"] else [])
     ++ (if Qeq_bool (Main.item probs "very_windy") 1
         then ["Usar zona protegida del viento o reubicar 1–2 km"] else []))%list.
Proof.
  intros probs. apply (suggestions_flagged probs 72).
  - apply distinct_wf. reflexivity.
  - unfold Props.binary, probs. simpl.
    intros k v [E | [E | [E | [E | [E | []]]]]]; injection E as _ <-;
      (left; reflexivity) || (right; reflexivity).
Defined.

End ThresholdProperties.

(** ** The classifier *)

Section QueryProperties.

Import Climatology Main.
Open Scope string_scope.


(** X8.  A day flagged very hot is also flagged very uncomfortable:
    the heat threshold is never below the 32 of the discomfort rule. *)
Theorem hot_is_uncomfortable (hi wc dp : Q) (pw : power) (pct : percentiles) :
  Dict.get (raw_probs hi wc dp pw pct) "very_hot" = Some 1 ->
  Dict.get (raw_probs hi wc dp pw pct) "very_uncomfortable" = Some 1.
Proof.
  unfold raw_probs. cbn [Dict.get String.eqb Ascii.eqb Bool.eqb].
  rewrite !float_of_bool_one. intros H. apply Qltb_true in H.
  assert (L : 32.0 <= hi) by (revert H; py_minmax; lra).
  apply Qle_bool_iff in L. rewrite L. now destruct (Qle_bool 20.0 dp).
Qed.

Lemma hot_is_uncomfortable_witness :
  let pw := Power 35 20 27 60 3 (Some 0) (Some 10) (Some 72%Z) (Some 0.25) in
  let b := Band 10 20 30 in
  let pct := Percentiles b b b b in
  Dict.get (raw_probs 36 20 18 pw pct) "very_uncomfortable" = Some 1.
Proof.
  intros pw b pct. apply (hot_is_uncomfortable 36 20 18 pw pct). reflexivity.
Defined.

End QueryProperties.

(** ** Physical sanity of the indices *)

Section IndexProperties.

Import Indices.


(** X9.  Below saturation the dew point is below the air
    temperature: for a humidity of at most 99 and a temperature from
    -100 to 100 degrees [compute_dew_point] returns a value at least
    0.02 below the temperature.  Of the logarithm only its range on
    [9e-9, 0.99] is used (log 0.99 is -0.01005...). *)
Theorem dew_point_le_temperature (ln : Q -> Q) (t rh : Q) :
  (forall x, 0.000000009 <= x -> x <= 0.99 -> -18.53 <= ln x <= -0.01) ->
  -100 <= t <= 100 -> rh <= 99 ->
  exists Td, compute_dew_point ln t rh = Py.Ok Td /\ Td <= t - 0.02.
Proof.
  intros Hln [Ht0 Ht1] Hrh.
  unfold compute_dew_point. cbv zeta.
  rewrite (div_Ok (17.62 * t) (243.12 + t)) by lra.
  cbn [Py.bind]. rewrite math_log_floored. cbn [Py.bind].
  set (x := Py.max rh 1e-6 / 100.0).
  assert (Hx : 0.000000009 <= x <= 0.99).
  { subst x.
    assert (E0 : 0.000000009 * 100.0 <= 1e-6) by (vm_compute; discriminate).
    assert (E1 : 1e-6 <= 99) by (vm_compute; discriminate).
    set (eps := 1e-6) in *.
    split; [apply Qle_shift_div_l | apply Qle_shift_div_r];
      try reflexivity; py_minmax; lra. }
  destruct (Hln x (proj1 Hx) (proj2 Hx)) as [Hl0 Hl1].
  set (l := ln x) in *.
  assert (Hq0 : -12.32 <= 17.62 * t / (243.12 + t)) by (apply Qle_shift_div_l; lra).
  assert (Hq1 : 17.62 * t / (243.12 + t) <= 5.14) by (apply Qle_shift_div_r; lra).
  assert (Eq : 17.62 * t / (243.12 + t) * t
               == 17.62 * t - 243.12 * (17.62 * t / (243.12 + t))) by (field; lra).
  set (q := 17.62 * t / (243.12 + t)) in *.
  rewrite (div_Ok (243.12 * (q + l)) (17.62 - (q + l))) by lra.
  eexists. split; [reflexivity |].
  apply Qle_shift_div_r; [lra |].
  assert (P : 0.01 * (243.12 + t - 0.02) <= (- l) * (243.12 + t - 0.02))
    by (apply Qmult_le_compat_r; lra).
  assert (E1 : (t - 0.02) * (17.62 - (q + l))
               == 17.62 * t - q * t - l * t - 0.3524 + 0.02 * q + 0.02 * l) by ring.
  assert (E2 : (- l) * (243.12 + t - 0.02) == - (243.12 * l) - l * t + 0.02 * l) by ring.
  lra.
Qed.

Lemma dew_point_le_temperature_witness :
  exists Td, compute_dew_point (fun x => x - 1) 20 65 = Py.Ok Td /\ Td <= 20 - 0.02.
Proof.
  apply (dew_point_le_temperature (fun x => x - 1) 20 65).
  - intros x H0 H1. split; lra.
  - split; vm_compute; discriminate.
  - vm_compute. discriminate.
Defined.

(** X10.  Wind never warms: the wind chill is at most the air
    temperature.  Of the power only [x ** 0.16 >= 1.285] from 4.8 km/h
    on is used (4.8 ** 0.16 is 1.2852...). *)
Theorem wind_chill_le_temperature (pow : Q -> Q -> Q) (t v : Q) :
  (forall x, 4.8 <= x -> 1.285 <= pow x 0.16) ->
  compute_wind_chill pow t v <= t.
Proof.
  intros Hpow. unfold compute_wind_chill. cbv zeta.
  destruct (Py.Qltb (v * 3.6) 4.8) eqn:E1; [cbn [orb]; lra | apply Qltb_false in E1].
  destruct (Py.Qltb 10 t) eqn:E2; [cbn [orb]; lra | apply Qltb_false in E2].
  cbn [orb].
  pose proof (Hpow (v * 3.6) E1) as HP.
  set (P := pow (v * 3.6) 0.16) in *.
  assert (M : 1.285 * (11.37 - 0.3965 * t) <= P * (11.37 - 0.3965 * t))
    by (apply Qmult_le_compat_r; lra).
  assert (E : 13.12 + 0.6215 * t - 11.37 * P + 0.3965 * t * P
              == 13.12 + 0.6215 * t - P * (11.37 - 0.3965 * t)) by ring.
  lra.
Qed.

Lemma wind_chill_le_temperature_witness :
  compute_wind_chill (fun x _ => x) 5 4 <= 5.
Proof.
  apply (wind_chill_le_temperature (fun x _ => x) 5 4).
  intros x H. lra.
Defined.

End IndexProperties.

(** ** The stub data source *)

Section StubProperties.

Import Main.
Open Scope string_scope.

Lemma uniform_range (a b u : Q) :
  a <= b -> Power.in_unit u -> a <= Power.uniform a b u <= b.
Proof.
  intros L [U0 U1]. unfold Power.uniform.
  assert (P : 0 <= (b - a) * u) by (apply Qmult_le_0_compat; lra).
  assert (M : u * (b - a) <= 1 * (b - a)) by (apply Qmult_le_compat_r; lra).
  assert (E : (b - a) * u == u * (b - a)) by ring.
  lra.
Qed.

Lemma raw_precip_range (d : Power.draws) :
  Power.valid d -> 0 <= Power.raw_precip d <= 15.
Proof.
  intros (_ & _ & _ & _ & _ & U). unfold Power.raw_precip.
  pose proof (uniform_range 0 15 _ ltac:(lra) U) as R.
  destruct (Py.Qltb (Power.u_wet d) 0.5); [py_minmax |]; lra.
Qed.

(** X11.  With draws in [0, 1) the stub returns tmax in [19, 29], tmin
    in [9, 19] with tmin <= tavg <= tmax, a humidity in [45, 85], a
    wind in [2, 12], a precipitation in [0, 15], the lead time 72 and
    the spread 0.25. *)
Theorem stub_ranges (lat lon : Q) (date_iso : string) (d : Power.draws) :
  Power.valid d ->
  let pw := Power.get_power_daily lat lon date_iso d in
  (19 <= tmax pw <= 29) /\ (9 <= tmin pw <= 19)
  /\ (tmin pw <= tavg pw <= tmax pw)
  /\ (45 <= rh pw <= 85) /\ (2 <= wind pw <= 12)
  /\ (exists p, precip pw = Some p /\ 0 <= p <= 15)
  /\ lead_hours pw = Some 72%Z /\ spread pw = Some 0.25.
Proof.
  intros V pw. pose proof (raw_precip_range d V) as RP.
  destruct V as (U1 & U2 & U3 & U4 & U5 & U6).
  pose proof (uniform_range (-5) 5 _ ltac:(lra) U1) as R1.
  pose proof (uniform_range (-5) 5 _ ltac:(lra) U2) as R2.
  pose proof (uniform_range (-20) 20 _ ltac:(lra) U3) as R3.
  pose proof (uniform_range 2 12 _ ltac:(lra) U4) as R4.
  subst pw. unfold Power.get_power_daily. cbv zeta.
  cbn [tmax tmin tavg rh wind precip lead_hours spread].
  set (x1 := Power.uniform (-5) 5 (Power.u_tmax d)) in *.
  set (x2 := Power.uniform (-5) 5 (Power.u_tmin d)) in *.
  set (x3 := Power.uniform (-20) 20 (Power.u_rh d)) in *.
  set (x4 := Power.uniform 2 12 (Power.u_wind d)) in *.
  assert (A : 24 + x1 - (14 + x2) >= 0) by lra.
  assert (H1 : (24 + x1 + (14 + x2)) / 2 == 19 + (x1 + x2) / 2) by field.
  assert (H2 : (x1 + x2) / 2 == (1 # 2) * x1 + (1 # 2) * x2) by field.
  repeat split;
    try (apply round_ge; [vm_compute; reflexivity | try py_minmax; lra]);
    try (apply round_le; [vm_compute; reflexivity | try py_minmax; lra]);
    try (apply round_mono; lra).
  eexists. split; [reflexivity |]. split.
  - apply round_ge; [vm_compute; reflexivity | lra].
  - apply round_le; [vm_compute; reflexivity | lra].
Qed.

Lemma stub_ranges_witness :
  let d := Power.Draws 0.5 0.25 0.75 0.1 0.2 0.4 in
  let pw := Power.get_power_daily (-34.9) (-56.2) "2025-10-05" d in
  (19 <= tmax pw <= 29) /\ (9 <= tmin pw <= 19)
  /\ (tmin pw <= tavg pw <= tmax pw)
  /\ (45 <= rh pw <= 85) /\ (2 <= wind pw <= 12)
  /\ (exists p, precip pw = Some p /\ 0 <= p <= 15)
  /\ lead_hours pw = Some 72%Z /\ spread pw = Some 0.25.
Proof.
  intros d. apply (stub_ranges (-34.9) (-56.2) "2025-10-05" d).
  unfold Power.valid, Power.in_unit, d. cbn.
  repeat split; vm_compute; (reflexivity || discriminate).
Defined.

(** X12.  The stub's PoP is read off the precipitation before it is
    rounded: it is 10, 30 or 60, it is 60 whenever the returned
    precipitation exceeds 5 and at least 30 whenever the returned
    precipitation is positive. *)
Theorem stub_pop (lat lon : Q) (date_iso : string) (d : Power.draws) :
  let pw := Power.get_power_daily lat lon date_iso d in
  exists p q, precip pw = Some p /\ pop pw = Some q
              /\ (q = 10 \/ q = 30 \/ q = 60)
              /\ (5 < p -> q = 60)
              /\ (0 < p -> q = 30 \/ q = 60).
Proof.
  intros pw. subst pw. unfold Power.get_power_daily. cbv zeta. cbn [precip pop].
  set (raw := Power.raw_precip d).
  exists (Py.round raw 1), (Power.pop_of raw).
  split; [reflexivity |]. split; [reflexivity |].
  unfold Power.pop_of.
  destruct (Py.Qltb 5 raw) eqn:E1; [apply Qltb_true in E1 | apply Qltb_false in E1].
  - repeat split; auto.
  - assert (R5 : Py.round raw 1 <= 5)
      by (apply round_le; [vm_compute; reflexivity | exact E1]).
    destruct (Py.Qltb 0 raw) eqn:E2; [apply Qltb_true in E2 | apply Qltb_false in E2].
    + repeat split; auto. intros H. exfalso. lra.
    + assert (R0 : Py.round raw 1 <= 0)
        by (apply round_le; [vm_compute; reflexivity | exact E2]).
      repeat split; auto; intros H; exfalso; lra.
Qed.

End StubProperties.

(** ** The query on stub data *)

Section StubQuery.

Import Main.
Open Scope string_scope.





End StubQuery.

(** ** The two PoP rules *)

Section PopProperties.

Lemma Qle_bool_false (x y : Q) : Qle_bool x y = false -> y < x.
Proof.
  intros E. apply Qnot_le_lt. intros L. apply Qle_bool_iff in L. congruence.
Qed.

Lemma estimate_pop_cases (p : Q) :
  (p <= 0 /\ Imerg.estimate_pop_from_daily p = 10%Z)
  \/ (0 < p /\ p <= 2 /\ Imerg.estimate_pop_from_daily p = 30%Z)
  \/ (2 < p /\ p <= 5 /\ Imerg.estimate_pop_from_daily p = 50%Z)
  \/ (5 < p /\ p <= 15 /\ Imerg.estimate_pop_from_daily p = 70%Z)
  \/ (15 < p /\ Imerg.estimate_pop_from_daily p = 85%Z).
Proof.
  unfold Imerg.estimate_pop_from_daily.
  destruct (Qle_bool p 0.0) eqn:E0;
    [apply Qle_bool_iff in E0; left; split; [lra | reflexivity] |].
  apply Qle_bool_false in E0.
  destruct (Qle_bool p 2.0) eqn:E2;
    [apply Qle_bool_iff in E2; right; left; repeat split; lra |].
  apply Qle_bool_false in E2.
  destruct (Qle_bool p 5.0) eqn:E5;
    [apply Qle_bool_iff in E5; right; right; left; repeat split; lra |].
  apply Qle_bool_false in E5.
  destruct (Qle_bool p 15.0) eqn:E15;
    [apply Qle_bool_iff in E15; right; right; right; left; repeat split; lra |].
  apply Qle_bool_false in E15.
  right; right; right; right. split; [lra | reflexivity].
Qed.

(** X14.  More rain never lowers the estimated PoP, which is one of 10,
    30, 50, 70, 85. *)
Theorem estimate_pop_monotone (p1 p2 : Q) :
  p1 <= p2 ->
  (Imerg.estimate_pop_from_daily p1 <= Imerg.estimate_pop_from_daily p2)%Z
  /\ In (Imerg.estimate_pop_from_daily p1) [10; 30; 50; 70; 85]%Z.
Proof.
  intros L.
  destruct (estimate_pop_cases p1) as [[A ->] | [(A & B & ->) | [(A & B & ->) | [(A & B & ->) | [A ->]]]]];
  destruct (estimate_pop_cases p2) as [[C ->] | [(C & D & ->) | [(C & D & ->) | [(C & D & ->) | [C ->]]]]];
    (split; [try lia; exfalso; lra | simpl; tauto]).
Qed.

Lemma estimate_pop_monotone_witness :
  (Imerg.estimate_pop_from_daily 1.5 <= Imerg.estimate_pop_from_daily 7.2)%Z
  /\ In (Imerg.estimate_pop_from_daily 1.5) [10; 30; 50; 70; 85]%Z.
Proof.
  apply (estimate_pop_monotone 1.5 7.2). vm_compute. discriminate.
Defined.

(** X15.  The estimate of imerg.py is never below the PoP the POWER
    paths compute from the same precipitation, and the two cross the 50
    of the very_wet rule at different amounts: the estimate above 2 mm,
    the POWER rule above 5 mm. *)
Theorem pop_rules_differ (p : Q) :
  Power.pop_of p <= inject_Z (Imerg.estimate_pop_from_daily p)
  /\ (50 <= inject_Z (Imerg.estimate_pop_from_daily p) <-> 2 < p)
  /\ (50 <= Power.pop_of p <-> 5 < p).
Proof.
  unfold Power.pop_of.
  destruct (Py.Qltb 5 p) eqn:E5; [apply Qltb_true in E5 | apply Qltb_false in E5];
    [| destruct (Py.Qltb 0 p) eqn:E0; [apply Qltb_true in E0 | apply Qltb_false in E0]];
    destruct (estimate_pop_cases p) as [[A ->] | [(A & B & ->) | [(A & B & ->) | [(A & B & ->) | [A ->]]]]];
    try (exfalso; lra);
    (split; [vm_compute; discriminate |]);
    (split; split; intros H; try lra; try (exfalso; lra);
     try (vm_compute; discriminate); try (exfalso; revert H; vm_compute; tauto)).
Qed.

End PopProperties.

(** ** Rounding and shifts by whole steps *)

Section RoundShift.





End RoundShift.

(** ** The shape of the bands *)

Section BandProperties.

Import Climatology.

Variable pi : Q.
Variables sin cos : Q -> Q.


End BandProperties.


(** ** What the climatology implies for the classifier *)

Section ClimateProperties.

Import Climatology Main.
Open Scope string_scope.

Variable pi : Q.
Variables sin cos : Q -> Q.

(** X18.  With a sine in [-1, 1] the precipitation band stays within
    p10 in [0, 2.5], p50 in [1, 4] and p90 in [4.6, 10]; in the dry half
    of the year (sine of the seasonal angle at most 0) it is 0 / 1 / 4.6
    everywhere, so that the amount rule of very_wet compares with 5. *)
Theorem precipitation_band (lat lon : Q) (doy : Z) :
  (forall x, -1 <= sin x <= 1) ->
  let pct := get_percentiles pi sin cos lat lon doy in
  (0 <= p10 (PRCP pct) <= 2.5)
  /\ (1 <= p50 (PRCP pct) <= 4)
  /\ (4.6 <= p90 (PRCP pct) <= 10)
  /\ (sin (theta pi lat doy) <= 0 ->
      p10 (PRCP pct) == 0 /\ p50 (PRCP pct) == 1 /\ p90 (PRCP pct) == 4.6
      /\ Py.max (p90 (PRCP pct)) 5 = 5).
Proof.
  intros Hsin pct. subst pct. unfold get_percentiles. cbv zeta.
  cbn [p10 p50 p90 PRCP].
  set (s := sin (theta pi lat doy)).
  pose proof (Hsin (theta pi lat doy)) as [S0 S1]. fold s in S0, S1.
  pose proof (Hsin (radians pi lon)) as [L0 L1].
  set (coast := 0.3 + 0.2 * (0.5 + 0.5 * sin (radians pi lon))).
  assert (Hc : 0.3 <= coast <= 0.5) by (subst coast; lra).
  set (wet := Py.max 0.0 s).
  assert (Hw : 0 <= wet <= 1) by (subst wet; py_minmax; lra).
  assert (P0 : 0 <= wet * coast) by (apply Qmult_le_0_compat; lra).
  assert (P1 : wet * coast <= 1 * coast) by (apply Qmult_le_compat_r; lra).
  assert (E : 6.0 * wet * coast == 6 * (wet * coast)) by ring.
  set (p := 1.0 + 6.0 * wet * coast) in *.
  assert (Hp : 1 <= p <= 4) by (subst p; lra).
  split; [| split; [| split]].
  - split; [apply round_ge | apply round_le];
      try (vm_compute; reflexivity); py_minmax; lra.
  - split; [apply round_ge | apply round_le];
      try (vm_compute; reflexivity); lra.
  - split; [apply round_ge | apply round_le];
      try (vm_compute; reflexivity); lra.
  - intros Dry.
    assert (W0 : wet = 0.0).
    { subst wet. destruct (max_cases 0.0 s) as [[L _] | [_ E0]]; [exfalso; lra | exact E0]. }
    assert (Ep : p == 1) by (subst p; rewrite W0; ring).
    assert (E10 : Py.round (Py.max 0.0 (p - 1.5)) 1 = Py.round 0 1).
    { apply round_comp. py_minmax; lra. }
    assert (E50 : Py.round p 1 = Py.round 1 1) by (apply round_comp; exact Ep).
    assert (E90 : Py.round (p + 6.0 * (0.6 + 0.4 * wet)) 1 = Py.round 4.6 1).
    { apply round_comp. rewrite W0, Ep. ring. }
    rewrite E10, E50, E90.
    repeat split; vm_compute; reflexivity.
Qed.

Lemma t50_upper (lat : Q) (doy : Z) :
  (forall x, -1 <= sin x <= 1) -> t50 pi sin lat doy <= 30.
Proof.
  intros Hsin. unfold t50, mean_t, amp_t, Py.abs.
  pose proof (Hsin (theta pi lat doy)) as [S0 S1].
  set (s := sin (theta pi lat doy)) in *.
  pose proof (Qabs_nonneg lat) as A. set (a := Qabs lat) in *.
  assert (M : 6 <= Py.max 6.0 (12.0 - 0.08 * a)) by (py_minmax; lra).
  assert (V : Py.max 6.0 (12.0 - 0.08 * a) <= 6
              \/ Py.max 6.0 (12.0 - 0.08 * a) <= 12 - 0.08 * a)
    by (py_minmax; [right | left]; lra).
  set (amp := Py.max 6.0 (12.0 - 0.08 * a)) in *.
  assert (P : s * amp <= 1 * amp) by (apply Qmult_le_compat_r; lra).
  assert (E : amp * s == s * amp) by ring.
  destruct V; lra.
Qed.

Lemma t50_lower (lat : Q) (doy : Z) :
  (forall x, -1 <= sin x <= 1) -> -90 <= lat <= 90 -> 1.2 <= t50 pi sin lat doy.
Proof.
  intros Hsin [L0 L1]. unfold t50, mean_t, amp_t, Py.abs.
  pose proof (Hsin (theta pi lat doy)) as [S0 S1].
  set (s := sin (theta pi lat doy)) in *.
  assert (A : 0 <= Qabs lat <= 90).
  { split; [apply Qabs_nonneg |]. apply Qabs_Qle_condition. split; lra. }
  set (a := Qabs lat) in *.
  assert (M : 6 <= Py.max 6.0 (12.0 - 0.08 * a)) by (py_minmax; lra).
  assert (V : Py.max 6.0 (12.0 - 0.08 * a) <= 6
              \/ Py.max 6.0 (12.0 - 0.08 * a) <= 12 - 0.08 * a)
    by (py_minmax; [right | left]; lra).
  set (amp := Py.max 6.0 (12.0 - 0.08 * a)) in *.
  assert (P : (-1) * amp <= s * amp) by (apply Qmult_le_compat_r; lra).
  assert (E : amp * s == s * amp) by ring.
  destruct V; lra.
Qed.

(** X19.  The climatological thresholds are bounded: with a sine in
    [-1, 1] the heat threshold never exceeds 34, so a heat index above
    34 is always flagged very hot; and for a latitude in [-90, 90] the
    cold threshold is never below -6.8, so a wind chill below -6.8 is
    always flagged very cold. *)
Theorem thresholds_bounded (lat lon : Q) (doy : Z) :
  (forall x, -1 <= sin x <= 1) ->
  let pct := get_percentiles pi sin cos lat lon doy in
  p90 (HI pct) <= 34
  /\ (forall hi wc dp pw, 34 < hi ->
        Dict.get (raw_probs hi wc dp pw pct) "very_hot" = Some 1)
  /\ (-90 <= lat <= 90 ->
      -6.8 <= p10 (WC pct)
      /\ forall hi wc dp pw, wc < -6.8 ->
           Dict.get (raw_probs hi wc dp pw pct) "very_cold" = Some 1).
Proof.
  intros Hsin pct.
  assert (H90 : p90 (HI pct) <= 34).
  { subst pct. unfold get_percentiles. cbv zeta. cbn [p90 HI].
    pose proof (t50_upper lat doy Hsin).
    apply round_le; [vm_compute; reflexivity | lra]. }
  split; [exact H90 |]. split.
  - intros hi wc dp pw H. unfold raw_probs.
    cbn [Dict.get String.eqb Ascii.eqb Bool.eqb].
    apply float_of_bool_one. apply Qltb_true. py_minmax; lra.
  - intros Hlat.
    assert (H10 : -6.8 <= p10 (WC pct)).
    { subst pct. unfold get_percentiles. cbv zeta. cbn [p10 WC].
      pose proof (t50_lower lat doy Hsin Hlat).
      apply round_ge; [vm_compute; reflexivity | lra]. }
    split; [exact H10 |].
    intros hi wc dp pw H. unfold raw_probs.
    cbn [Dict.get String.eqb Ascii.eqb Bool.eqb].
    apply float_of_bool_one. apply Qltb_true. py_minmax; lra.
Qed.

(** X20.  The southern hemisphere is the northern one half a year
    later: at a latitude below 0 the bands of a day are those of the
    opposite latitude 183 days on. *)
Theorem hemisphere_shift (lat lon : Q) (doy : Z) :
  0 < lat ->
  get_percentiles pi sin cos (- lat) lon doy
  = get_percentiles pi sin cos lat lon (doy + 183).
Proof.
  intros L.
  assert (A : Py.abs (- lat) = Py.abs lat).
  { unfold Py.abs. destruct lat as [n d]. unfold Qopp, Qabs. simpl.
    now rewrite Z.abs_opp. }
  assert (O1 : offset (- lat) = 17%Z).
  { unfold offset. rewrite (proj2 (Qltb_true (- lat) 0)) by lra. reflexivity. }
  assert (O2 : offset lat = 200%Z).
  { unfold offset. rewrite (proj2 (Qltb_false lat 0)) by lra. reflexivity. }
  assert (T : theta pi (- lat) doy = theta pi lat (doy + 183)).
  { unfold theta. rewrite O1, O2. do 3 f_equal. lia. }
  unfold get_percentiles, t50, mean_t, amp_t. cbv zeta.
  rewrite T, A. reflexivity.
Qed.

End ClimateProperties.

Lemma precipitation_band_witness :
  let f := fun x => Py.max (-1) (Py.min 1 x) in
  let pct := Climatology.get_percentiles 3.14159 f f (-34.9) (-56.2) 278 in
  (0 <= Climatology.p10 (Climatology.PRCP pct) <= 2.5)
  /\ (1 <= Climatology.p50 (Climatology.PRCP pct) <= 4)
  /\ (4.6 <= Climatology.p90 (Climatology.PRCP pct) <= 10)
  /\ (f (Climatology.theta 3.14159 (-34.9) 278) <= 0 ->
      Climatology.p10 (Climatology.PRCP pct) == 0
      /\ Climatology.p50 (Climatology.PRCP pct) == 1
      /\ Climatology.p90 (Climatology.PRCP pct) == 4.6
      /\ Py.max (Climatology.p90 (Climatology.PRCP pct)) 5 = 5).
Proof.
  intros f.
  apply (precipitation_band 3.14159 f f (-34.9) (-56.2) 278).
  intros x. apply clipped_range.
Defined.

Lemma thresholds_bounded_witness :
  let f := fun x => Py.max (-1) (Py.min 1 x) in
  let pct := Climatology.get_percentiles 3.14159 f f (-34.9) (-56.2) 278 in
  Climatology.p90 (Climatology.HI pct) <= 34
  /\ (forall hi wc dp pw, 34 < hi ->
        Dict.get (Main.raw_probs hi wc dp pw pct) "very_hot"%string = Some 1)
  /\ (-90 <= -34.9 <= 90 ->
      -6.8 <= Climatology.p10 (Climatology.WC pct)
      /\ forall hi wc dp pw, wc < -6.8 ->
           Dict.get (Main.raw_probs hi wc dp pw pct) "very_cold"%string = Some 1).
Proof.
  intros f.
  apply (thresholds_bounded 3.14159 f f (-34.9) (-56.2) 278).
  intros x. apply clipped_range.
Defined.

Lemma hemisphere_shift_witness :
  let f := fun x => Py.max (-1) (Py.min 1 x) in
  Climatology.get_percentiles 3.14159 f f (- 34.9) (-56.2) 278
  = Climatology.get_percentiles 3.14159 f f 34.9 (-56.2) (278 + 183).
Proof.
  intros f.
  apply (hemisphere_shift 3.14159 f f 34.9 (-56.2) 278).
  reflexivity.
Defined.

(** ** combine_sources: range and one source *)

Section CombineProperties.

Open Scope string_scope.

Lemma sum_from (ws : list Q) (a : Q) : fold_left Qplus ws a == a + Py.sum ws.
Proof.
  unfold Py.sum. revert a. induction ws as [| w ws IH]; intros a; simpl; [ring |].
  rewrite IH, (IH (0 + w)). ring.
Qed.

Lemma sum_cons (w : Q) (ws : list Q) : Py.sum (w :: ws) == w + Py.sum ws.
Proof. unfold Py.sum at 1. simpl. rewrite sum_from. ring. Qed.

Lemma sum_nonneg (ws : list Q) : (forall w, In w ws -> 0 <= w) -> 0 <= Py.sum ws.
Proof.
  induction ws as [| w ws IH]; intros N; [vm_compute; discriminate |].
  rewrite sum_cons.
  assert (0 <= w) by (apply N; now left).
  assert (0 <= Py.sum ws) by (apply IH; intros w' I; apply N; now right).
  lra.
Qed.

Lemma weighted_average_bounds (total : Q) (key : string)
      (sources : list (gmap string Q)) (weights : list Q) :
  0 < total ->
  (forall w, In w weights -> 0 <= w) ->
  (forall s k v, In s sources -> s !! k = Some v -> 0 <= v <= 1) ->
  0 <= Spec.weighted_average_by total key sources weights <= Py.sum weights / total.
Proof.
  intros T. revert weights.
  induction sources as [| s sources IH]; intros weights NW V.
  - assert (R : Spec.weighted_average_by total key [] weights = 0) by now destruct weights.
    rewrite R. split; [lra |].
    apply Qle_shift_div_l; [exact T |]. pose proof (sum_nonneg weights NW). lra.
  - destruct weights as [| w weights].
    + simpl. split; [lra |]. apply Qle_shift_div_l; [exact T |]. vm_compute. discriminate.
    + cbn [Spec.weighted_average_by].
      assert (W0 : 0 <= w) by (apply NW; now left).
      assert (IHb : 0 <= Spec.weighted_average_by total key sources weights
                    <= Py.sum weights / total).
      { apply IH; [intros w' I; apply NW; now right
                  | intros s' k v I; apply V; now right]. }
      assert (D : 0 <= w / total) by (apply Qle_shift_div_l; lra).
      assert (B : 0 <= default 0 (s !! key) <= 1).
      { destruct (s !! key) as [v |] eqn:G; simpl; [apply (V s key v); [now left | exact G] | lra]. }
      set (x := default 0 (s !! key)) in *.
      assert (P0 : 0 <= x * (w / total)) by (apply Qmult_le_0_compat; lra).
      assert (P1 : x * (w / total) <= 1 * (w / total)) by (apply Qmult_le_compat_r; lra).
      assert (E : Py.sum (w :: weights) / total == w / total + Py.sum weights / total)
        by (rewrite sum_cons; field; lra).
      rewrite E. lra.
Qed.

(** X22.  A weighted average of probabilities is a probability: with
    source values in [0, 1] and weights that are not negative, every
    value [combine_sources] returns lies in [0, 1]. *)
Theorem combine_sources_unit_interval (sources : list (gmap string Q)) (weights : list Q)
        (combined : gmap string Q) :
  (forall w, In w weights -> 0 <= w) ->
  (forall s k v, In s sources -> s !! k = Some v -> 0 <= v <= 1) ->
  Fuse.combine_sources sources weights = Py.Ok combined ->
  forall k v, combined !! k = Some v -> 0 <= v <= 1.
Proof.
  intros NW V R k v G.
  destruct (Qeq_dec (Py.sum weights) 0) as [Z0 | N].
  { unfold Fuse.combine_sources in R. cbv zeta in R.
    apply Qeq_bool_iff in Z0. rewrite Z0 in R. discriminate. }
  rewrite (combine_sources_value _ _ N) in R. injection R as <-.
  rewrite lookup_by_key in G.
  destruct (decide (k ∈ Fuse.all_keys sources)); [| discriminate].
  injection G as <-.
  assert (T : 0 < Py.sum weights) by (pose proof (sum_nonneg weights NW); lra).
  pose proof (weighted_average_bounds (Py.sum weights) k sources weights T NW V) as [B0 B1].
  assert (E1 : Py.sum weights / Py.sum weights == 1) by (field; lra).
  unfold Spec.weighted_average. split.
  - apply round_ge; [vm_compute; reflexivity | exact B0].
  - apply round_le; [vm_compute; reflexivity | lra].
Qed.

(** X23.  One source with any nonzero weight comes back as it is, its
    values rounded to 4 decimals. *)
Theorem combine_sources_single (source : gmap string Q) (w : Q) :
  ~ w == 0 ->
  Fuse.combine_sources [source] [w] = Py.Ok ((fun v => Py.round v 4) <$> source).
Proof.
  intros Nw.
  assert (S : Py.sum [w] == w) by (rewrite sum_cons; vm_compute (Py.sum []); ring).
  assert (N : ~ Py.sum [w] == 0) by (rewrite S; exact Nw).
  rewrite (combine_sources_value _ _ N). f_equal.
  apply map_eq. intros k. rewrite lookup_by_key, lookup_fmap.
  destruct (decide (k ∈ Fuse.all_keys [source])) as [I | NI].
  - apply elem_of_all_keys in I as [s [[<- | []] [v G]]].
    rewrite G. simpl. f_equal. apply round_comp.
    unfold Spec.weighted_average. cbn [Spec.weighted_average_by].
    rewrite G, S. simpl. field. exact Nw.
  - destruct (source !! k) as [v |] eqn:G; [| reflexivity].
    exfalso. apply NI. apply elem_of_all_keys. exists source. split; [now left | now exists v].
Qed.

Lemma combine_sources_single_witness :
  Fuse.combine_sources [{["a" := 0.123456]}] [7]
  = Py.Ok ((fun v => Py.round v 4) <$> ({["a" := 0.123456]} : gmap string Q)).
Proof.
  apply (combine_sources_single {["a" := 0.123456]} 7).
  vm_compute. discriminate.
Defined.

End CombineProperties.

Lemma combine_sources_unit_interval_witness :
  0 <= 6500 # 10000 <= 1.
Proof.
  refine (combine_sources_unit_interval
            [{["a"%string := 0.2]}; {["a"%string := 0.8]}] [1; 3]
            {["a"%string := 6500 # 10000]} _ _ _ "a"%string (6500 # 10000) _).
  - intros w [<- | [<- | []]]; vm_compute; discriminate.
  - intros s k v [<- | [<- | []]] G;
      apply lookup_singleton_Some in G as [_ <-]; split; vm_compute; discriminate.
  - vm_compute. reflexivity.
  - vm_compute. reflexivity.
Defined.

(** ** combine_sources: sources without a weight *)

Section CombineUnweighted.

Import PrimFloat.
#[local] Set Warnings "-inexact-float".
Open Scope string_scope.
Open Scope float_scope.

Lemma weighted_average_app64 (acc total : float) (key : string)
      (sources extra : list (gmap string float)) (weights : list float) :
  (length weights <= length sources)%nat ->
  Spec64.weighted_average_from acc total key (sources ++ extra) weights
  = Spec64.weighted_average_from acc total key sources weights.
Proof.
  revert acc weights.
  induction sources as [| s sources IH]; intros acc [| w weights] L; simpl in *;
    try reflexivity; try lia.
  - now destruct extra.
  - apply IH. lia.
Qed.

(** Adding the product of 0.0 and a finite number to 0.0 leaves 0.0. *)
Lemma zero_step (x : float) : Binary64.finite x = true -> 0 + 0 * x = 0.
Proof.
  intros F. apply FloatAxioms.Prim2SF_inj.
  rewrite FloatAxioms.add_spec, FloatAxioms.mul_spec.
  unfold Binary64.finite in F.
  change (FloatOps.Prim2SF 0) with (SpecFloat.S754_zero false).
  destruct (FloatOps.Prim2SF x) as [s | s | | s m e]; try discriminate;
    destruct s; reflexivity.
Qed.

Lemma weighted_average_absent64 (total : float) (key : string)
      (sources : list (gmap string float)) (weights : list float) :
  (forall s, In s sources -> s !! key = None) ->
  (forall w, In w weights -> Binary64.finite (w / total) = true) ->
  Spec64.weighted_average_from 0 total key sources weights = 0.
Proof.
  revert weights.
  induction sources as [| s sources IH]; intros [| w weights] A F; simpl; try reflexivity.
  rewrite (A s) by now left. cbn [default].
  rewrite zero_step by (apply F; now left).
  apply IH; [intros s' I; apply A; now right | intros w' I; apply F; now right].
Qed.

(** X24.  Sources beyond the last weight are not an error: their keys
    are returned, but their values are ignored, so a key that only
    they have comes back as 0.0 (the normalised weights being finite
    numbers). *)
Theorem combine_sources_unweighted (sum : list float -> float)
        (sources extra : list (gmap string float)) (weights : list float) (key : string) :
  eqb (sum weights) 0 = false ->
  (length weights <= length sources)%nat ->
  (exists s, In s extra /\ is_Some (s !! key)) ->
  exists combined,
    Binary64.combine_sources sum (sources ++ extra) weights = Py.Ok combined
    /\ combined !! key
       = Some (Binary64.round
                 (Spec64.weighted_average (sum weights) key sources weights) 4)
    /\ ((forall s, In s sources -> s !! key = None) ->
        (forall w, In w weights -> Binary64.finite (w / sum weights) = true) ->
        combined !! key = Some 0).
Proof.
  intros N L [s [I G]].
  rewrite (combine_sources_value64 _ _ _ N). eexists. split; [reflexivity |].
  rewrite lookup_by_key64.
  rewrite decide_True
    by (apply elem_of_all_keys64; exists s; split; [apply in_or_app; now right | exact G]).
  unfold Spec64.weighted_average. rewrite (weighted_average_app64 _ _ _ _ _ _ L).
  split; [reflexivity |].
  intros A F. rewrite (weighted_average_absent64 _ _ _ _ A F).
  vm_compute. reflexivity.
Qed.

Lemma combine_sources_unweighted_witness :
  exists combined,
    Binary64.combine_sources Binary64.sum ([{["a" := 0.5]}] ++ [{["b" := 0.9]}]) [2]
    = Py.Ok combined
    /\ combined !! "b"
       = Some (Binary64.round
                 (Spec64.weighted_average (Binary64.sum [2]) "b" [{["a" := 0.5]}] [2]) 4)
    /\ ((forall s, In s [({["a" := 0.5]} : gmap string float)] -> s !! "b" = None) ->
        (forall w, In w [2] -> Binary64.finite (w / Binary64.sum [2]) = true) ->
        combined !! "b" = Some 0).
Proof.
  apply (combine_sources_unweighted Binary64.sum [{["a" := 0.5]}] [{["b" := 0.9]}] [2] "b").
  - vm_compute. reflexivity.
  - simpl. lia.
  - exists {["b" := 0.9]}. split; [now left | now exists 0.9].
Defined.

End CombineUnweighted.

(** ** The effect of the final rounding *)

Section RoundError.



End RoundError.

(** ** When the query answers and when it fails *)

Section QueryOutcome.

Import Main.
Open Scope string_scope.



End QueryOutcome.
